(** * Coffee-shop drinks API: a shallow embedding of [backend/src/api.py]

    The Flask application of [api.py] is embedded as functions over an
    explicit drinks table.  View functions run in a small reader/state/error
    monad: the reader part is Flask's ambient [request], the state part is
    the [drinks] table behind [Drink.query] and [db.session], the error part
    is Python's exceptions.  Library behaviour ([abort], [jsonify], the error
    handler registry, [request.get_json]) is written out next to the code
    that relies on it. *)

From stdpp Require Import gmap strings list sorting pretty.
From Stdlib Require Import ZArith Ascii String.

Open Scope string_scope.
Open Scope Z_scope.

(** ** JSON values

    Python values that travel through [request.get_json], [json.dumps],
    [json.loads] and [jsonify].  [JNull] is Python's [None]; a [JObj] is a
    Python [dict] in insertion order.  Numbers are the integers (the recipe's
    parts-count); floating point literals are outside the embedding. *)

#[local] Set Warnings "-register-all".
Inductive json : Type :=
  | JNull
  | JBool (b : bool)
  | JNum (n : Z)
  | JStr (s : string)
  | JArr (items : list json)
  | JObj (fields : list (string * json)).

(** [d[k]] as a partial lookup on the fields of a [dict]. *)
Fixpoint assoc (k : string) (fields : list (string * json)) : option json :=
  match fields with
  | [] => None
  | (k', v) :: rest => if String.eqb k k' then Some v else assoc k rest
  end.

(** ** Exceptions *)

(** Modelled from the spec: the failure kinds of the Token Verifier and the
    Permission Gate (sections 4.1, 4.2 and 7); the [auth] module that defines
    them is not part of the sources. *)
Inductive auth_failure : Type :=
  | MissingToken
  | InvalidHeader
  | ExpiredToken
  | InvalidClaims
  | InvalidSignature
  | InsufficientScope.

(** Modelled from the spec: [AuthError], "a structured error with an HTTP
    status and a machine-readable code plus human-readable description"; the
    class itself lives in the absent [auth] module.  It is an exception of the
    application, not one of werkzeug's [HTTPException]s. *)
Record AuthError : Type := {
  code : auth_failure;
  description : string;
  status_code : Z
}.

(** Modelled from the spec: token failures carry 401, a missing scope 403. *)
Definition auth_status (k : auth_failure) : Z :=
  match k with
  | InsufficientScope => 403
  | _ => 401
  end.

Definition auth_error (k : auth_failure) (descr : string) : AuthError :=
  {| code := k; description := descr; status_code := auth_status k |}.

(** Python exceptions other than the two families above, by class. *)
Inductive py_error : Type :=
  | AttributeError
  | TypeError
  | KeyError
  | LookupError
  | JSONDecodeError
  | SQLAlchemyError.

Inductive exn : Type :=
  | HTTPException (status : Z)
  | AuthErrorExn (e : AuthError)
  | PyError (e : py_error).

Inductive outcome (A : Type) : Type :=
  | Return (a : A)
  | Raise (e : exn).
Arguments Return {A} a.
Arguments Raise {A} e.

#[global] Instance outcome_ret : MRet outcome := @Return.
#[global] Instance outcome_fmap : FMap outcome := λ A B f o,
  match o with
  | Return a => Return (f a)
  | Raise e => Raise e
  end.
#[global] Instance outcome_bind : MBind outcome := λ A B k o,
  match o with
  | Return a => k a
  | Raise e => Raise e
  end.

(** ** The drinks table *)

(** Modelled from the spec: the columns of [Drink] (section 3); the model
    module is not part of the sources.  [id] is the primary key, so the table
    is a finite map from [id] to the remaining columns.  [title] holds what
    the view assigned to it, [recipe] the serialized structure. *)
Record Drink : Type := {
  title : json;
  recipe : string
}.

Abbreviation store := (gmap Z Drink).

(** ** Requests and responses *)

(** The methods of the requests the embedding covers.  The answers Flask
    gives on its own to [OPTIONS] and [HEAD] are outside it. *)
Inductive http_method : Type := GET | POST | PATCH | DELETE | PUT.

(** The URL after matching against the three rules of the application:
    [/drinks], [/drinks-detail] and [/drinks/<int:id>]. *)
Inductive url : Type :=
  | UrlDrinks
  | UrlDrinksDetail
  | UrlDrinksId (id : Z)
  | UrlOther.

(** What [request.get_json()] does for this request: it returns the parsed
    body ([None] when there is nothing to parse), or raises [BadRequest] on a
    body that fails to parse, or [UnsupportedMediaType]. *)
Inductive json_reading : Type :=
  | JsonValue (v : json)
  | JsonBadRequest
  | JsonUnsupportedMediaType.

Record request : Type := {
  method : http_method;
  path : url;
  authorization : option string;
  json_body : json_reading
}.

Inductive body : Type :=
  | Json (j : json)
  | DefaultPage.

Record response : Type := {
  status : Z;
  content : body
}.

(** ** The monad of view functions *)

Definition M (A : Type) : Type := request → store → outcome A * store.

Definition ret {A} (a : A) : M A := λ _ s, (Return a, s).

Definition bind {A B} (m : M A) (k : A → M B) : M B :=
  λ req s,
    match m req s with
    | (Return a, s') => k a req s'
    | (Raise e, s') => (Raise e, s')
    end.

Definition raise {A} (e : exn) : M A := λ _ s, (Raise e, s).

(** [try: m except Exception as e: h e] *)
Definition try_except {A} (m : M A) (h : exn → M A) : M A :=
  λ req s,
    match m req s with
    | (Return a, s') => (Return a, s')
    | (Raise e, s') => h e req s'
    end.

Definition lift {A} (o : outcome A) : M A := λ _ s, (o, s).

Definition ask : M request := λ req s, (Return req, s).
Definition get_store : M store := λ _ s, (Return s, s).

#[global] Instance M_ret : MRet M := @ret.
#[global] Instance M_bind : MBind M := λ A B k m, bind m k.

(** ** What the application is configured with

    The pieces the views call that are neither in [api.py] nor expressible as
    plain functions of the request: signature checking of the bearer token,
    Python's [json] codec, and the constraints of the [drinks] table (declared
    with the model, which is not part of the sources).  They are fixed once
    for the application and handed to every view. *)

(** Modelled from the spec: the AuthContext of section 3, "decoded token
    claims, primarily a set of permission strings"; [permissions] is [None]
    when the claims lack the field. *)
Record Claims : Type := {
  permissions : option (list string);
  other_claims : list (string * json)
}.

Record Env : Type := {
  (** steps 2 to 4 of the Token Verifier: key lookup, signature, expiry,
      audience and issuer of a raw token *)
  verify_decode_jwt : string → AuthError + Claims;
  (** [json.dumps] *)
  json_dumps : json → string;
  (** [json.loads]; [None] when it raises *)
  json_loads : string → option json;
  (** does the table, holding the given other rows, take this row? *)
  table_accepts : store → Drink → bool
}.

(** ** Flask and werkzeug *)

(** The status codes [werkzeug.exceptions.abort] has an exception class for. *)
Definition default_exceptions : list Z :=
  [400; 401; 403; 404; 405; 406; 408; 409; 410; 411; 412; 413; 414; 415; 416;
   417; 418; 422; 423; 424; 428; 429; 431; 451; 500; 501; 502; 503; 504; 505].

(** [abort(code)]: raises the exception registered for the code, and
    [LookupError] when there is none. *)
Definition abort {A} (status : Z) : M A :=
  if bool_decide (status ∈ default_exceptions)
  then raise (HTTPException status)
  else raise (PyError LookupError).

(** [jsonify(d)], a 200 response unless the handler pairs it with a code. *)
Definition jsonify (j : json) : response := {| status := 200; content := Json j |}.

Definition with_status (r : response) (c : Z) : response :=
  {| status := c; content := content r |}.

(** [request.get_json()] *)
Definition get_json : M json :=
  req ← ask;
  match json_body req with
  | JsonValue v => ret v
  | JsonBadRequest => raise (HTTPException 400)
  | JsonUnsupportedMediaType => raise (HTTPException 415)
  end.

(** [body.get(key)]: the value or [None] on a [dict], [AttributeError] on
    anything else ([None], a list, a string, a number). *)
Definition py_get (body : json) (key : string) : M json :=
  match body with
  | JObj fields => ret (default JNull (assoc key fields))
  | _ => raise (PyError AttributeError)
  end.

(** [x is None] *)
Definition is_None (v : json) : bool :=
  match v with
  | JNull => true
  | _ => false
  end.

(** ** The model layer: [Drink] and its queries *)

(** [Drink.query.order_by(Drink.id).all()]: every row, by ascending id. *)
Definition by_id : relation (Z * Drink) := λ a b, a.1 ≤ b.1.

#[global] Instance by_id_dec a b : Decision (by_id a b) := Z_le_dec a.1 b.1.

Definition query_order_by_id (s : store) : list (Z * Drink) :=
  merge_sort by_id (map_to_list s).

(** The id the table generates for the next row: one more than the largest
    id in use, starting from 1. *)
Definition max_id (s : store) : Z := map_fold (λ k _ acc, Z.max k acc) 0 s.
Definition next_id (s : store) : Z := 1 + max_id s.

(** Modelled from the spec: one ingredient entry in the short projection,
    "only color and parts per ingredient (name withheld)".  The spec is
    silent on entries that lack one of the two; there the projection has no
    value. *)
Definition short_ingredient (r : json) : option json :=
  match r with
  | JObj fields =>
      c ← assoc "color" fields;
      p ← assoc "parts" fields;
      Some (JObj [("color", c); ("parts", p)])
  | _ => None
  end.

(** The stored recipe read back as the sequence of its ingredient entries. *)
Definition ingredients (loads : string → option json) (d : Drink) : option (list json) :=
  match loads (recipe d) with
  | Some (JArr entries) => Some entries
  | _ => None
  end.

(** [header.split(' ')] *)
Fixpoint split_on (sep : ascii) (s : string) : list string :=
  match s with
  | EmptyString => [EmptyString]
  | String c rest =>
      match split_on sep rest with
      | [] => [String c EmptyString]
      | w :: ws =>
          if Ascii.eqb c sep then EmptyString :: w :: ws else String c w :: ws
      end
  end.

Section App.
Context (env : Env).

(** Modelled from the spec: [Drink.short()], "id, title, recipe with only
    color and parts per ingredient"; the method is declared with the model,
    outside the sources.  It raises where the stored recipe is not a
    sequence of such entries. *)
Definition short (row : Z * Drink) : outcome json :=
  match ingredients (json_loads env) row.2 ≫= mapM short_ingredient with
  | Some entries =>
      Return (JObj [("id", JNum row.1); ("title", title row.2);
                    ("recipe", JArr entries)])
  | None => Raise (PyError TypeError)
  end.

(** Modelled from the spec: [Drink.long()], "id, title, full recipe
    including ingredient name": the stored recipe as [json.loads] reads it
    back. *)
Definition long (row : Z * Drink) : outcome json :=
  match json_loads env (recipe row.2) with
  | Some r =>
      Return (JObj [("id", JNum row.1); ("title", title row.2); ("recipe", r)])
  | None => Raise (PyError JSONDecodeError)
  end.

(** [Drink.query.filter(Drink.id == id).one_or_none()] *)
Definition one_or_none (id : Z) : M (option Drink) :=
  s ← get_store; mret (s !! id).

(** Modelled from the spec: [drink.insert()], "persist a new Drink" under a
    generated id.  The row is written when the table takes it; otherwise
    the commit raises and the table is as before. *)
Definition insert (d : Drink) : M Z :=
  λ _ s,
    if table_accepts env s d
    then (Return (next_id s), <[next_id s := d]> s)
    else (Raise (PyError SQLAlchemyError), s).

(** Modelled from the spec: [drink.update()], "persist" the mutated row in
    place, checked against the other rows of the table. *)
Definition update (id : Z) (d : Drink) : M unit :=
  λ _ s,
    if table_accepts env (delete id s) d
    then (Return (), <[id := d]> s)
    else (Raise (PyError SQLAlchemyError), s).

(** Modelled from the spec: [drink.delete()], "remove it". *)
Definition delete_row (id : Z) : M unit :=
  λ _ s, (Return (), delete id s).

(** *** The auth decorator *)

(** Modelled from the spec: step 1 of the Token Verifier (section 4.1),
    "parse header; must be exactly two space-separated parts, first
    literally Bearer"; [MissingToken] without a header or when the header
    is not of the form [Bearer <token>], [InvalidHeader] on another
    scheme.  The function lives in the absent [auth] module. *)
Definition get_token_auth_header (req : request) : outcome string :=
  match authorization req with
  | None =>
      Raise (AuthErrorExn (auth_error MissingToken "Authorization header is expected."))
  | Some header =>
      match split_on " " header with
      | [scheme; token] =>
          if String.eqb scheme "Bearer" then Return token
          else Raise (AuthErrorExn (auth_error InvalidHeader
                        "Authorization header must start with Bearer."))
      | _ =>
          Raise (AuthErrorExn (auth_error MissingToken
                   "Authorization header must be of the form Bearer token."))
      end
  end.

(** Steps 2 to 4 of the Token Verifier, as the application is configured. *)
Definition verify_token (token : string) : outcome Claims :=
  match verify_decode_jwt env token with
  | inl e => Raise (AuthErrorExn e)
  | inr payload => Return payload
  end.

(** Modelled from the spec: the Permission Gate (section 4.2), "succeed if
    the permissions array in claims contains the required string; otherwise
    fail InsufficientScope; if claims lack a permissions field entirely,
    fail InvalidClaims". *)
Definition check_permissions (permission : string) (payload : Claims) : outcome unit :=
  match permissions payload with
  | None =>
      Raise (AuthErrorExn (auth_error InvalidClaims "Permissions not included in token."))
  | Some granted =>
      if bool_decide (permission ∈ granted) then Return ()
      else Raise (AuthErrorExn (auth_error InsufficientScope "Permission not found."))
  end.

(** Verifier then Gate: the claims the request carries, once verified and
    found to hold the permission. *)
Definition authenticate (permission : string) (req : request) : outcome Claims :=
  token ← get_token_auth_header req;
  payload ← verify_token token;
  check_permissions permission payload;;
  mret payload.

(** Modelled from the spec: [@requires_auth(permission)], "runs Verifier
    then Gate before invoking its handler; the handler receives the
    verified claims as an argument". *)
Definition requires_auth (permission : string) (f : Claims → M response) : M response :=
  req ← ask;
  payload ← lift (authenticate permission req);
  f payload.

(** *** Routes *)

(** [GET /drinks] *)
Definition get_drinks : M response :=
  s ← get_store;
  let results := query_order_by_id s in
  drinks ← lift (mapM short results);
  mret (jsonify (JObj [("success", JBool true); ("drinks", JArr drinks)])).

(** [GET /drinks-detail] *)
Definition get_drinks_detail (payload : Claims) : M response :=
  s ← get_store;
  let results := query_order_by_id s in
  drinks ← lift (mapM long results);
  mret (jsonify (JObj [("success", JBool true); ("drinks", JArr drinks)])).

(** [POST /drinks]: the [try] block and the whole view. *)
Definition create_drink_try : M response :=
  body ← get_json;
  t ← py_get body "title";
  r ← py_get body "recipe";
  let drink := {| title := t; recipe := json_dumps env r |} in
  id ← insert drink;
  l ← lift (long (id, drink));
  mret (jsonify (JObj [("success", JBool true); ("drinks", JArr [l])])).

Definition create_drink (payload : Claims) : M response :=
  try_except create_drink_try (λ _, abort 422).

(** The [except Exception as e] clause shared by the update and delete
    views. *)
Definition reraise_or_unprocessable (e : exn) : M response :=
  match e with
  | HTTPException c => abort c
  | _ => abort 422
  end.

(** [PATCH /drinks/<id>] *)
Definition update_drink_try (id : Z) : M response :=
  body ← get_json;
  found ← one_or_none id;
  drink ← match found with
          | None => abort 404
          | Some d => mret d
          end;
  t ← py_get body "title";
  let drink1 :=
    if negb (is_None t) then {| title := t; recipe := recipe drink |} else drink in
  r ← py_get body "recipe";
  let drink2 :=
    if negb (is_None r)
    then {| title := title drink1; recipe := json_dumps env r |}
    else drink1 in
  update id drink2;;
  l ← lift (long (id, drink2));
  mret (jsonify (JObj [("success", JBool true); ("drinks", JArr [l])])).

Definition update_drink (payload : Claims) (id : Z) : M response :=
  try_except (update_drink_try id) reraise_or_unprocessable.

(** [DELETE /drinks/<id>] *)
Definition delete_drink_try (id : Z) : M response :=
  found ← one_or_none id;
  match found with
  | None => abort 404
  | Some _ => mret ()
  end;;
  delete_row id;;
  mret (jsonify (JObj [("success", JBool true); ("delete", JNum id)])).

Definition delete_drink (payload : Claims) (id : Z) : M response :=
  try_except (delete_drink_try id) reraise_or_unprocessable.

(** *** Error handling *)

Definition unprocessable (error : exn) : response :=
  with_status
    (jsonify (JObj [("success", JBool false); ("error", JNum 422);
                    ("message", JStr "unprocessable")])) 422.

Definition not_found (error : exn) : response :=
  with_status
    (jsonify (JObj [("success", JBool false); ("error", JNum 404);
                    ("message", JStr "resource not found")])) 404.

Definition unauthorized (error : exn) : response :=
  with_status
    (jsonify (JObj [("success", JBool false); ("error", JNum 401);
                    ("message", JStr "unauthorized")])) 401.

Definition forbidden (error : exn) : response :=
  with_status
    (jsonify (JObj [("success", JBool false); ("error", JNum 403);
                    ("message", JStr "forbidden")])) 403.

(** The registry the four [@app.errorhandler(code)] decorators fill. *)
Definition error_handler_spec (status : Z) : option (exn → response) :=
  if status =? 422 then Some unprocessable
  else if status =? 404 then Some not_found
  else if status =? 401 then Some unauthorized
  else if status =? 403 then Some forbidden
  else None.

(** Flask's [handle_user_exception] followed by [handle_exception]: an
    [HTTPException] goes to the handler registered for its code and is its
    own response when there is none; any other exception is looked up by
    class, and ends as a plain 500 since no handler is registered for a
    class or for 500. *)
Definition handle_user_exception (e : exn) : response :=
  match e with
  | HTTPException c =>
      match error_handler_spec c with
      | Some handler => handler e
      | None => {| status := c; content := DefaultPage |}
      end
  | _ => {| status := 500; content := DefaultPage |}
  end.

(** The URL map the [@app.route] decorators fill, with the permission each
    view is wrapped with.  A URL no rule matches raises [NotFound]; a rule
    without the method raises [MethodNotAllowed]. *)
Definition dispatch_request : M response :=
  req ← ask;
  match path req, method req with
  | UrlDrinks, GET => get_drinks
  | UrlDrinksDetail, GET => requires_auth "get:drinks-detail" get_drinks_detail
  | UrlDrinks, POST => requires_auth "post:drinks" create_drink
  | UrlDrinksId id, PATCH => requires_auth "patch:drinks" (λ payload, update_drink payload id)
  | UrlDrinksId id, DELETE => requires_auth "delete:drinks" (λ payload, delete_drink payload id)
  | UrlOther, _ => raise (HTTPException 404)
  | _, _ => raise (HTTPException 405)
  end.

(** One request against the table: the response sent and the table left. *)
Definition wsgi_app (req : request) (s : store) : response * store :=
  match dispatch_request req s with
  | (Return r, s') => (r, s')
  | (Raise e, s') => (handle_user_exception e, s')
  end.
End App.

(** ** A configuration to run the application with

    A printer and a reader for the JSON values above stand in for Python's
    [json] module, a table of three known tokens for the identity provider,
    and "the title is a string" for the table's constraints. *)

Module Sample.

Definition quote : ascii := "034"%char.
Definition backslash : ascii := "092"%char.

Fixpoint escape (s : string) : string :=
  match s with
  | EmptyString => EmptyString
  | String c rest =>
      if Ascii.eqb c quote || Ascii.eqb c backslash
      then String backslash (String c (escape rest))
      else String c (escape rest)
  end.

Definition quoted (s : string) : string :=
  String quote (escape s +:+ String quote EmptyString).

Definition join (sep : string) (parts : list string) : string :=
  match parts with
  | [] => ""
  | p :: ps => foldl (λ acc q, acc +:+ sep +:+ q) p ps
  end.

Fixpoint dumps (j : json) : string :=
  match j with
  | JNull => "null"
  | JBool true => "true"
  | JBool false => "false"
  | JNum n => pretty n
  | JStr s => quoted s
  | JArr items => "[" +:+ join ", " (map dumps items) +:+ "]"
  | JObj fields =>
      "{" +:+ join ", " (map (λ kv, quoted kv.1 +:+ ": " +:+ dumps kv.2) fields) +:+ "}"
  end.

Definition chars : Type := list ascii.

Definition is_space (c : ascii) : bool :=
  Ascii.eqb c " " || Ascii.eqb c "010" || Ascii.eqb c "009" || Ascii.eqb c "013".

Fixpoint skip_ws (l : chars) : chars :=
  match l with
  | c :: rest => if is_space c then skip_ws rest else l
  | [] => []
  end.

Fixpoint strip_prefix (p l : chars) : option chars :=
  match p, l with
  | [], _ => Some l
  | a :: p', b :: l' => if Ascii.eqb a b then strip_prefix p' l' else None
  | _ :: _, [] => None
  end.

(** The characters up to the closing quote, escapes undone. *)
Fixpoint read_string (l : chars) : option (string * chars) :=
  match l with
  | [] => None
  | c :: rest =>
      if Ascii.eqb c quote then Some (EmptyString, rest)
      else if Ascii.eqb c backslash then
        match rest with
        | e :: rest' =>
            '(s, r) ← read_string rest'; Some (String e s, r)
        | [] => None
        end
      else '(s, r) ← read_string rest; Some (String c s, r)
  end.

Definition digit (c : ascii) : option Z :=
  let n := Z.of_nat (nat_of_ascii c) in
  if bool_decide (48 ≤ n ≤ 57) then Some (n - 48) else None.

Definition is_digit (c : ascii) : bool := bool_decide (is_Some (digit c)).

Fixpoint read_digits (acc : Z) (l : chars) : Z * chars :=
  match l with
  | c :: rest =>
      match digit c with
      | Some d => read_digits (10 * acc + d) rest
      | None => (acc, l)
      end
  | [] => (acc, [])
  end.

Definition read_number (l : chars) : option (json * chars) :=
  match l with
  | c :: rest =>
      if Ascii.eqb c "-" then
        match rest with
        | d :: _ =>
            if is_digit d
            then let '(n, r) := read_digits 0 rest in Some (JNum (- n), r)
            else None
        | [] => None
        end
      else if is_digit c then
        let '(n, r) := read_digits 0 l in Some (JNum n, r)
      else None
  | [] => None
  end.

Definition reader (A : Type) : Type := chars → option (A * chars).

(** [v, v, ... ]] after the opening bracket and a first look-ahead. *)
Fixpoint read_items (value : reader json) (n : nat) (l : chars) : option (list json * chars) :=
  match n with
  | O => None
  | S n' =>
      '(v, r) ← value l;
      match skip_ws r with
      | c :: r' =>
          if Ascii.eqb c "," then
            '(vs, r'') ← read_items value n' r'; Some (v :: vs, r'')
          else if Ascii.eqb c "]" then Some ([v], r')
          else None
      | [] => None
      end
  end.

Fixpoint read_fields (value : reader json) (n : nat) (l : chars)
  : option (list (string * json) * chars) :=
  match n with
  | O => None
  | S n' =>
      match skip_ws l with
      | q :: r0 =>
          if Ascii.eqb q quote then
            '(k, r1) ← read_string r0;
            match skip_ws r1 with
            | colon :: r2 =>
                if Ascii.eqb colon ":" then
                  '(v, r3) ← value r2;
                  match skip_ws r3 with
                  | c :: r4 =>
                      if Ascii.eqb c "," then
                        '(kvs, r5) ← read_fields value n' r4; Some ((k, v) :: kvs, r5)
                      else if Ascii.eqb c "}" then Some ([(k, v)], r4)
                      else None
                  | [] => None
                  end
                else None
            | [] => None
            end
          else None
      | [] => None
      end
  end.

Fixpoint read_value (fuel : nat) (l : chars) : option (json * chars) :=
  match fuel with
  | O => None
  | S fuel' =>
      match skip_ws l with
      | [] => None
      | c :: rest =>
          if Ascii.eqb c quote then
            '(s, r) ← read_string rest; Some (JStr s, r)
          else if Ascii.eqb c "[" then
            match skip_ws rest with
            | c' :: r' =>
                if Ascii.eqb c' "]" then Some (JArr [], r')
                else '(vs, r) ← read_items (read_value fuel') fuel' rest; Some (JArr vs, r)
            | [] => None
            end
          else if Ascii.eqb c "{" then
            match skip_ws rest with
            | c' :: r' =>
                if Ascii.eqb c' "}" then Some (JObj [], r')
                else '(kvs, r) ← read_fields (read_value fuel') fuel' rest; Some (JObj kvs, r)
            | [] => None
            end
          else
            match strip_prefix (list_ascii_of_string "null") (c :: rest),
                  strip_prefix (list_ascii_of_string "true") (c :: rest),
                  strip_prefix (list_ascii_of_string "false") (c :: rest) with
            | Some r, _, _ => Some (JNull, r)
            | _, Some r, _ => Some (JBool true, r)
            | _, _, Some r => Some (JBool false, r)
            | _, _, _ => read_number (c :: rest)
            end
      end
  end.

Definition loads (s : string) : option json :=
  let l := list_ascii_of_string s in
  match read_value (S (List.length l)) l with
  | Some (v, rest) =>
      match skip_ws rest with
      | [] => Some v
      | _ => None
      end
  | None => None
  end.

Definition all_permissions : list string :=
  ["get:drinks-detail"; "post:drinks"; "patch:drinks"; "delete:drinks"].

Definition verifier (token : string) : AuthError + Claims :=
  if String.eqb token "manager" then
    inr {| permissions := Some all_permissions; other_claims := [] |}
  else if String.eqb token "barista" then
    inr {| permissions := Some ["get:drinks-detail"]; other_claims := [] |}
  else if String.eqb token "stale" then
    inl (auth_error ExpiredToken "Token expired.")
  else inl (auth_error InvalidSignature "Unable to find the appropriate key.").

Definition accepts (others : store) (d : Drink) : bool :=
  match title d with
  | JStr _ => true
  | _ => false
  end.

Definition env : Env :=
  {| verify_decode_jwt := verifier;
     json_dumps := dumps;
     json_loads := loads;
     table_accepts := accepts |}.

Definition ingredient (name color : string) (parts : Z) : json :=
  JObj [("name", JStr name); ("color", JStr color); ("parts", JNum parts)].

Definition water : Drink :=
  {| title := JStr "water"; recipe := dumps (JArr [ingredient "water" "blue" 1]) |}.

Definition latte : Drink :=
  {| title := JStr "latte";
     recipe := dumps (JArr [ingredient "milk" "grey" 3; ingredient "coffee" "brown" 1]) |}.

Definition menu : store := <[7 := latte]> (<[2 := water]> ∅).

Definition manager (m : http_method) (u : url) (b : json_reading) : request :=
  {| method := m; path := u; authorization := Some "Bearer manager"; json_body := b |}.

Definition anonymous (m : http_method) (u : url) (b : json_reading) : request :=
  {| method := m; path := u; authorization := None; json_body := b |}.

Definition barista (m : http_method) (u : url) (b : json_reading) : request :=
  {| method := m; path := u; authorization := Some "Bearer barista"; json_body := b |}.

Definition manager_claims : Claims :=
  {| permissions := Some all_permissions; other_claims := [] |}.

Definition tea : json :=
  JObj [("title", JStr "tea"); ("recipe", JArr [ingredient "tea" "green" 2])].

Definition rename_to_tea : json := JObj [("title", JStr "tea")].

Definition null_title : json := JObj [("title", JNull); ("recipe", JArr [])].

End Sample.

(** ** Vocabulary of the statements *)

(** The error envelope: [{success: false, error: <code>, message: <msg>}]. *)
Definition envelope (status : Z) (message : string) : json :=
  JObj [("success", JBool false); ("error", JNum status); ("message", JStr message)].

Definition error_response (status : Z) (message : string) : response :=
  {| status := status; content := Json (envelope status message) |}.

(** The status codes the application registers an error handler for. *)
Definition handled_codes : list Z := [401; 403; 404; 422].

(** Werkzeug's own page for an exception nobody handles. *)
Definition default_response (status : Z) : response :=
  {| status := status; content := DefaultPage |}.

(** The field [key] as the request body supplies it: [None] when the body is
    not an object or lacks the key. *)
Definition body_field (req : request) (key : string) : option json :=
  match json_body req with
  | JsonValue (JObj fields) => assoc key fields
  | _ => None
  end.

(** The non-public endpoints with the permission each one asks for and the
    view behind it. *)
Inductive guarded_endpoint (env : Env) : request → string → (Claims → M response) → Prop :=
  | guarded_drinks_detail req :
      path req = UrlDrinksDetail → method req = GET →
      guarded_endpoint env req "get:drinks-detail" (get_drinks_detail env)
  | guarded_create req :
      path req = UrlDrinks → method req = POST →
      guarded_endpoint env req "post:drinks" (create_drink env)
  | guarded_update req id :
      path req = UrlDrinksId id → method req = PATCH →
      guarded_endpoint env req "patch:drinks" (λ payload, update_drink env payload id)
  | guarded_delete req id :
      path req = UrlDrinksId id → method req = DELETE →
      guarded_endpoint env req "delete:drinks" (λ payload, delete_drink payload id).



(** The short projection in the spec's words: color and parts of an entry. *)
Definition color_and_parts (r : json) : json :=
  match r with
  | JObj fields =>
      JObj [("color", default JNull (assoc "color" fields));
            ("parts", default JNull (assoc "parts" fields))]
  | _ => JNull
  end.


(** The row a [PATCH] body asks for: each of the two fields is the supplied
    value when the body carries one that is not [null], and the stored value
    otherwise. *)
Definition patched (env : Env) (d : Drink) (fields : list (string * json)) : Drink :=
  {| title :=
       match assoc "title" fields with
       | Some v => if is_None v then title d else v
       | None => title d
       end;
     recipe :=
       match assoc "recipe" fields with
       | Some v => if is_None v then recipe d else json_dumps env v
       | None => recipe d
       end |}.

(** The row [POST /drinks] builds from the fields of the body. *)
Definition new_drink (env : Env) (fields : list (string * json)) : Drink :=
  {| title := default JNull (assoc "title" fields);
     recipe := json_dumps env (default JNull (assoc "recipe" fields)) |}.

Definition success_drinks (l : json) : response :=
  jsonify (JObj [("success", JBool true); ("drinks", JArr [l])]).

(** The responses the statements range over: what the error handlers make of
    an exception, and what the application sends for a request. *)
Inductive sent (env : Env) : response → Prop :=
  | sent_for_exception e : sent env (handle_user_exception e)
  | sent_for_request req s : sent env (wsgi_app env req s).1.

(** [DELETE /drinks/<id>] with [drink.delete()] left open: the view of
    [api.py] over any behaviour of the model's method, which is declared
    outside the sources and may raise whatever the database raises. *)
Definition delete_drink_try_with (remove : Z → M unit) (id : Z) : M response :=
  found ← one_or_none id;
  match found with
  | None => abort 404
  | Some _ => mret ()
  end;;
  remove id;;
  mret (jsonify (JObj [("success", JBool true); ("delete", JNum id)])).

Definition delete_drink_with (remove : Z → M unit) (payload : Claims) (id : Z) : M response :=
  try_except (delete_drink_try_with remove id) reraise_or_unprocessable.

(** What the [except] clause of the update and delete views turns an
    exception of the [try] block into. *)
Definition resurfaced (e : exn) : exn :=
  match e with
  | HTTPException c => HTTPException c
  | _ => HTTPException 422
  end.

(** The long projection of a row whose recipe reads back. *)
Definition long_projection (env : Env) (row : Z * Drink) : json :=
  JObj [("id", JNum row.1); ("title", title row.2);
        ("recipe", default JNull (json_loads env (recipe row.2)))].

(** The three shapes a response of the application can have: a 200 whose
    JSON object says [success: true], one of the four error envelopes, or
    werkzeug's page for a code nobody handles. *)
Inductive answer : response → Prop :=
  | answer_success fields :
      assoc "success" fields = Some (JBool true) →
      answer (jsonify (JObj fields))
  | answer_envelope c message :
      c ∈ handled_codes → answer (error_response c message)
  | answer_page c :
      c ∈ [400; 405; 415; 500] → answer (default_response c).

(** What one request can do to the table: nothing, or write the new row of
    a [POST], or put the patched row of a [PATCH] in place of the stored one,
    or remove the row of a [DELETE]; each of the three only behind its
    permission. *)
Inductive table_step (env : Env) (req : request) (s : store) : store → Prop :=
  | step_none : table_step env req s s
  | step_insert payload fields :
      path req = UrlDrinks → method req = POST →
      authenticate env "post:drinks" req = Return payload →
      json_body req = JsonValue (JObj fields) →
      table_accepts env s (new_drink env fields) = true →
      table_step env req s (<[next_id s := new_drink env fields]> s)
  | step_update payload id d fields :
      path req = UrlDrinksId id → method req = PATCH →
      authenticate env "patch:drinks" req = Return payload →
      json_body req = JsonValue (JObj fields) →
      s !! id = Some d →
      table_accepts env (delete id s) (patched env d fields) = true →
      table_step env req s (<[id := patched env d fields]> s)
  | step_delete payload id d :
      path req = UrlDrinksId id → method req = DELETE →
      authenticate env "delete:drinks" req = Return payload →
      s !! id = Some d →
      table_step env req s (delete id s).

(** ** Running views: unfolding the monad *)

Ltac unfold_monad :=
  unfold mbind, mret, M_bind, M_ret, outcome_bind, outcome_ret,
    bind, ret, raise, lift, ask, get_store, try_except in *.

Ltac run_app :=
  unfold wsgi_app, dispatch_request, requires_auth in *; unfold_monad; simpl in *.

Section Facts.
Context (env : Env).
Implicit Types (req : request) (s : store) (e : exn) (id : Z) (d : Drink).

(** *** The decorator *)

Lemma requires_auth_rejects permission (f : Claims → M response) req s e :
  authenticate env permission req = Raise e →
  requires_auth env permission f req s = (Raise e, s).
Proof. intros H. run_app. by rewrite H. Qed.

Lemma requires_auth_passes permission (f : Claims → M response) req s payload :
  authenticate env permission req = Return payload →
  requires_auth env permission f req s = f payload req s.
Proof. intros H. run_app. by rewrite H. Qed.

Lemma get_token_auth_header_raises req e :
  get_token_auth_header req = Raise e → ∃ a, e = AuthErrorExn a.
Proof.
  unfold get_token_auth_header. intros H.
  destruct (authorization req) as [header|]; [|simplify_eq; eauto].
  destruct (split_on " " header) as [|scheme [|token [|? ?]]];
    try (simplify_eq; eauto; fail).
  destruct (String.eqb scheme "Bearer"); simplify_eq; eauto.
Qed.

Lemma verify_token_raises token e :
  verify_token env token = Raise e → ∃ a, e = AuthErrorExn a.
Proof.
  unfold verify_token. destruct (verify_decode_jwt env token); intros; simplify_eq; eauto.
Qed.

Lemma check_permissions_raises permission payload e :
  check_permissions permission payload = Raise e → ∃ a, e = AuthErrorExn a.
Proof.
  unfold check_permissions. destruct (permissions payload) as [granted|];
    [case_bool_decide|]; intros; simplify_eq; eauto.
Qed.

Lemma authenticate_raises_auth_error permission req e :
  authenticate env permission req = Raise e → ∃ a, e = AuthErrorExn a.
Proof.
  unfold authenticate. unfold_monad.
  destruct (get_token_auth_header req) as [token|e1] eqn:H1.
  - destruct (verify_token env token) as [payload|e2] eqn:H2.
    + destruct (check_permissions permission payload) as [[]|e3] eqn:H3; [done|].
      intros; simplify_eq. eauto using check_permissions_raises.
    + intros; simplify_eq. eauto using verify_token_raises.
  - intros; simplify_eq. eauto using get_token_auth_header_raises.
Qed.

Lemma dispatch_guarded req s permission view :
  guarded_endpoint env req permission view →
  dispatch_request env req s = requires_auth env permission view req s.
Proof.
  destruct 1 as [req Hp Hm|req Hp Hm|req id Hp Hm|req id Hp Hm];
    unfold dispatch_request; unfold_monad; by rewrite Hp, Hm.
Qed.

(** C1: on each of the four non-public endpoints the Token Verifier and
    the Permission Gate run first.  When they pass, the request is answered
    by the view applied to the verified claims; when either fails, the
    request ends in that [AuthError] with the table untouched, whatever the
    view is. *)
Theorem auth_runs_before_the_view req s permission view :
  guarded_endpoint env req permission view →
  match authenticate env permission req with
  | Return payload => dispatch_request env req s = view payload req s
  | Raise e =>
      (∃ a, e = AuthErrorExn a) ∧
      dispatch_request env req s = (Raise e, s) ∧
      ∀ other : Claims → M response,
        requires_auth env permission other req s = (Raise e, s)
  end.
Proof.
  intros Hg. rewrite (dispatch_guarded _ _ _ _ Hg).
  destruct (authenticate env permission req) as [payload|e] eqn:Hauth.
  - by apply requires_auth_passes.
  - split; [by eapply authenticate_raises_auth_error|].
    split; [|intros other]; by apply requires_auth_rejects.
Qed.

(** *** [abort] and the error handlers *)

Lemma abort_known {A} c :
  c ∈ default_exceptions → abort (A := A) c = raise (HTTPException c).
Proof. intros H. unfold abort. by rewrite bool_decide_eq_true_2. Qed.

Lemma abort_404 {A} : abort (A := A) 404 = raise (HTTPException 404).
Proof. reflexivity. Qed.

Lemma abort_422 {A} : abort (A := A) 422 = raise (HTTPException 422).
Proof. reflexivity. Qed.

Lemma abort_400 {A} : abort (A := A) 400 = raise (HTTPException 400).
Proof. reflexivity. Qed.

Lemma abort_415 {A} : abort (A := A) 415 = raise (HTTPException 415).
Proof. reflexivity. Qed.

Lemma handle_422 : handle_user_exception (HTTPException 422) = error_response 422 "unprocessable".
Proof. reflexivity. Qed.

Lemma handle_404 : handle_user_exception (HTTPException 404) = error_response 404 "resource not found".
Proof. reflexivity. Qed.

Lemma handle_401 : handle_user_exception (HTTPException 401) = error_response 401 "unauthorized".
Proof. reflexivity. Qed.

Lemma handle_403 : handle_user_exception (HTTPException 403) = error_response 403 "forbidden".
Proof. reflexivity. Qed.

Lemma handle_unregistered c :
  c ∉ handled_codes → handle_user_exception (HTTPException c) = default_response c.
Proof.
  intros H. unfold handle_user_exception, error_handler_spec, handled_codes in *.
  repeat case_match; try done;
    match goal with E : (c =? _) = true |- _ => apply Z.eqb_eq in E; subst c end;
    exfalso; apply H; apply list_elem_of_In; simpl; tauto.
Qed.

Lemma handle_http_status c : status (handle_user_exception (HTTPException c)) = c.
Proof.
  unfold handle_user_exception, error_handler_spec.
  repeat case_match; simplify_eq; simpl; try done;
    match goal with E : (c =? _) = true |- _ => by apply Z.eqb_eq in E end.
Qed.

Lemma handle_registered e :
  status (handle_user_exception e) ∈ handled_codes →
  ∃ message,
    handle_user_exception e = error_response (status (handle_user_exception e)) message.
Proof.
  destruct e as [c| |];
    [|simpl; unfold handled_codes; rewrite list_elem_of_In; simpl;
      intros H; exfalso; lia ..].
  rewrite handle_http_status. unfold handled_codes. intros H.
  assert (c = 401 ∨ c = 403 ∨ c = 404 ∨ c = 422) as Hc
    by (apply list_elem_of_In in H; simpl in H; intuition).
  destruct Hc as [-> | [-> | [-> | ->]]]; eexists; reflexivity.
Qed.

(** *** The shared [except] clause *)

Lemma reraise_known c req s :
  c ∈ default_exceptions →
  reraise_or_unprocessable (HTTPException c) req s = (Raise (HTTPException c), s).
Proof. intros H. unfold reraise_or_unprocessable. by rewrite abort_known. Qed.

Lemma reraise_other e req s :
  (∀ c, e ≠ HTTPException c) →
  reraise_or_unprocessable e req s = (Raise (HTTPException 422), s).
Proof. destruct e; [intros H; by destruct (H status0)|done..]. Qed.

(** *** [DELETE /drinks/<id>] *)

Lemma delete_drink_try_found id req s d :
  s !! id = Some d →
  delete_drink_try id req s =
    (Return (jsonify (JObj [("success", JBool true); ("delete", JNum id)])), delete id s).
Proof. intros H. unfold delete_drink_try, one_or_none, delete_row. unfold_monad. by rewrite H. Qed.

Lemma delete_drink_try_missing id req s :
  s !! id = None → delete_drink_try id req s = (Raise (HTTPException 404), s).
Proof. intros H. unfold delete_drink_try, one_or_none. unfold_monad. by rewrite H. Qed.

Lemma delete_drink_found payload id req s d :
  s !! id = Some d →
  delete_drink payload id req s =
    (Return (jsonify (JObj [("success", JBool true); ("delete", JNum id)])), delete id s).
Proof.
  intros H. unfold delete_drink, try_except. by rewrite (delete_drink_try_found _ _ _ _ H).
Qed.

Lemma delete_drink_missing payload id req s :
  s !! id = None → delete_drink payload id req s = (Raise (HTTPException 404), s).
Proof.
  intros H. unfold delete_drink, try_except. by rewrite (delete_drink_try_missing _ _ _ H).
Qed.

(** C3: an authorized [DELETE /drinks/<id>] on a stored id answers
    [{success: true, delete: id}] and leaves the table without that row and
    with every other row as it was; the same request again, or on an id
    that was never stored, answers the 404 envelope and leaves the table
    unchanged. *)
Theorem delete_removes_exactly_that_drink req s id payload :
  path req = UrlDrinksId id → method req = DELETE →
  authenticate env "delete:drinks" req = Return payload →
  (∀ d, s !! id = Some d →
     wsgi_app env req s =
       (jsonify (JObj [("success", JBool true); ("delete", JNum id)]), delete id s) ∧
     delete id s !! id = None ∧
     (∀ j, j ≠ id → delete id s !! j = s !! j) ∧
     wsgi_app env req (delete id s) =
       (error_response 404 "resource not found", delete id s)) ∧
  (s !! id = None →
     wsgi_app env req s = (error_response 404 "resource not found", s)).
Proof.
  intros Hp Hm Hauth.
  assert (∀ s0, dispatch_request env req s0 = delete_drink payload id req s0) as Hd.
  { intros s0. rewrite (dispatch_guarded req s0 _ _ (guarded_delete env req id Hp Hm)).
    by rewrite (requires_auth_passes _ (λ p, delete_drink p id) _ _ _ Hauth). }
  assert (∀ s0, s0 !! id = None →
            wsgi_app env req s0 = (error_response 404 "resource not found", s0)) as Hmiss.
  { intros s0 H0. unfold wsgi_app. by rewrite Hd, (delete_drink_missing _ _ _ _ H0). }
  split; [|by apply Hmiss].
  intros d Hs. split; [|split; [|split]].
  - unfold wsgi_app. by rewrite Hd, (delete_drink_found _ _ _ _ _ Hs).
  - apply lookup_delete_eq.
  - intros j Hj. by apply lookup_delete_ne.
  - apply Hmiss, lookup_delete_eq.
Qed.

(** C9, at the failing input: a request for [GET /drinks-detail] without
    an [Authorization] header ends in the [AuthError] for a missing token
    (status 401), and the application answers it with the plain 500 page:
    neither the status nor the code nor the description of the error
    reaches the response. *)
Theorem missing_token_is_answered_500 (b : json_reading) s :
  let req := {| method := GET; path := UrlDrinksDetail;
                authorization := None; json_body := b |} in
  dispatch_request env req s =
    (Raise (AuthErrorExn (auth_error MissingToken "Authorization header is expected.")), s) ∧
  status_code (auth_error MissingToken "Authorization header is expected.") = 401 ∧
  wsgi_app env req s = (default_response 500, s).
Proof. by repeat split. Qed.

Lemma handle_auth_error (a : AuthError) :
  handle_user_exception (AuthErrorExn a) = default_response 500.
Proof. reflexivity. Qed.

(** *** [PATCH /drinks/<id>] *)

Lemma update_drink_try_eq id req s :
  update_drink_try env id req s =
    match json_body req with
    | JsonBadRequest => (Raise (HTTPException 400), s)
    | JsonUnsupportedMediaType => (Raise (HTTPException 415), s)
    | JsonValue body =>
        match s !! id with
        | None => (Raise (HTTPException 404), s)
        | Some d =>
            match body with
            | JObj fields =>
                if table_accepts env (delete id s) (patched env d fields)
                then (success_drinks <$> long env (id, patched env d fields),
                      <[id := patched env d fields]> s)
                else (Raise (PyError SQLAlchemyError), s)
            | _ => (Raise (PyError AttributeError), s)
            end
        end
    end.
Proof.
  unfold update_drink_try, get_json, one_or_none, update, py_get. unfold_monad.
  destruct (json_body req) as [body| |]; try done.
  destruct (s !! id) as [d|]; [|done]. simpl.
  destruct body as [| | | | |fields]; try done.
  unfold patched. destruct d as [t0 r0]. simpl.
  destruct (assoc "title" fields) as [[]|], (assoc "recipe" fields) as [[]|]; simpl;
    (destruct (table_accepts env _ _); [|done]);
    unfold fmap, outcome_fmap; by destruct (long env _).
Qed.

Lemma update_drink_try_raises_known id req s c s' :
  update_drink_try env id req s = (Raise (HTTPException c), s') →
  c = 400 ∨ c = 415 ∨ c = 404.
Proof.
  rewrite update_drink_try_eq. unfold long, fmap, outcome_fmap.
  repeat case_match; intros; simplify_eq; auto.
Qed.

Lemma delete_drink_try_raises_known id req s c s' :
  delete_drink_try id req s = (Raise (HTTPException c), s') → c = 404.
Proof.
  destruct (s !! id) as [d|] eqn:H.
  - by rewrite (delete_drink_try_found _ _ _ _ H).
  - rewrite (delete_drink_try_missing _ _ _ H). by intros; simplify_eq.
Qed.

Lemma except_clause (m : M response) req s :
  (∀ c s', m req s = (Raise (HTTPException c), s') → c ∈ default_exceptions) →
  try_except m reraise_or_unprocessable req s =
    match m req s with
    | (Return r, s') => (Return r, s')
    | (Raise e, s') => (Raise (resurfaced e), s')
    end.
Proof.
  intros Hk. unfold try_except. destruct (m req s) as [[r|e] s'] eqn:Hm; [done|].
  destruct e as [c| |]; try done.
  apply reraise_known. by eapply Hk.
Qed.

Lemma update_drink_except payload id req s :
  update_drink env payload id req s =
    match update_drink_try env id req s with
    | (Return r, s') => (Return r, s')
    | (Raise e, s') => (Raise (resurfaced e), s')
    end.
Proof.
  apply except_clause. intros c s' H.
  apply update_drink_try_raises_known in H. apply list_elem_of_In.
  destruct H as [-> | [-> | ->]]; simpl; tauto.
Qed.

Lemma delete_drink_except payload id req s :
  delete_drink payload id req s =
    match delete_drink_try id req s with
    | (Return r, s') => (Return r, s')
    | (Raise e, s') => (Raise (resurfaced e), s')
    end.
Proof.
  apply except_clause. intros c s' H.
  apply delete_drink_try_raises_known in H. subst c.
  apply list_elem_of_In. simpl; tauto.
Qed.

Lemma handle_resurfaced e :
  match e with
  | HTTPException c => status (handle_user_exception (resurfaced e)) = c
  | _ => handle_user_exception (resurfaced e) = error_response 422 "unprocessable"
  end.
Proof. destruct e; simpl resurfaced; [apply handle_http_status|done..]. Qed.

(** C7: whatever the [try] block of the update view or of the delete view
    raises, the view raises in its place: an [HTTPException] again with its
    own code, which is the status of the response, and the 422 exception,
    answered with the unprocessable envelope, for every other exception.
    A [try] block that returns is the view's result.  For the delete view
    this holds over every behaviour of [drink.delete()], the view of the
    source being the one over the model's [delete]; an [HTTPException] whose
    code [abort] has no class for ends in the [LookupError] of [abort]. *)
Theorem except_clause_keeps_http_errors payload id req s :
  (match update_drink_try env id req s with
   | (Return r, s') => update_drink env payload id req s = (Return r, s')
   | (Raise (HTTPException c), s') =>
       update_drink env payload id req s = (Raise (HTTPException c), s') ∧
       status (handle_user_exception (HTTPException c)) = c
   | (Raise _, s') =>
       update_drink env payload id req s = (Raise (HTTPException 422), s') ∧
       handle_user_exception (HTTPException 422) = error_response 422 "unprocessable"
   end) ∧
  (match delete_drink_try id req s with
   | (Return r, s') => delete_drink payload id req s = (Return r, s')
   | (Raise (HTTPException c), s') =>
       delete_drink payload id req s = (Raise (HTTPException c), s') ∧
       status (handle_user_exception (HTTPException c)) = c
   | (Raise _, s') =>
       delete_drink payload id req s = (Raise (HTTPException 422), s') ∧
       handle_user_exception (HTTPException 422) = error_response 422 "unprocessable"
   end) ∧
  delete_drink payload id = delete_drink_with delete_row payload id ∧
  (∀ remove : Z → M unit,
     match delete_drink_try_with remove id req s with
     | (Return r, s') => delete_drink_with remove payload id req s = (Return r, s')
     | (Raise (HTTPException c), s') =>
         if bool_decide (c ∈ default_exceptions)
         then delete_drink_with remove payload id req s = (Raise (HTTPException c), s') ∧
              status (handle_user_exception (HTTPException c)) = c
         else delete_drink_with remove payload id req s = (Raise (PyError LookupError), s')
     | (Raise _, s') =>
         delete_drink_with remove payload id req s = (Raise (HTTPException 422), s') ∧
         handle_user_exception (HTTPException 422) = error_response 422 "unprocessable"
     end).
Proof.
  split; [|split; [|split; [reflexivity|]]].
  - rewrite (update_drink_except payload).
    destruct (update_drink_try env id req s) as [[r|[c| |]] s']; try done.
    split; [done|apply handle_http_status].
  - rewrite (delete_drink_except payload).
    destruct (delete_drink_try id req s) as [[r|[c| |]] s']; try done.
    split; [done|apply handle_http_status].
  - intros remove. unfold delete_drink_with, try_except.
    destruct (delete_drink_try_with remove id req s) as [[r|[c| |]] s']; try done.
    unfold reraise_or_unprocessable, abort.
    destruct (bool_decide (c ∈ default_exceptions)); [|done].
    split; [done|apply handle_http_status].
Qed.

(** The whole of [PATCH /drinks/<id>], from the request to the response
    and the table. *)
Lemma wsgi_app_patch req s id :
  path req = UrlDrinksId id → method req = PATCH →
  wsgi_app env req s =
    match authenticate env "patch:drinks" req with
    | Raise e => (handle_user_exception e, s)
    | Return _ =>
        match json_body req with
        | JsonBadRequest => (default_response 400, s)
        | JsonUnsupportedMediaType => (default_response 415, s)
        | JsonValue body =>
            match s !! id with
            | None => (error_response 404 "resource not found", s)
            | Some d =>
                match body with
                | JObj fields =>
                    if table_accepts env (delete id s) (patched env d fields)
                    then (match long env (id, patched env d fields) with
                          | Return l => success_drinks l
                          | Raise _ => error_response 422 "unprocessable"
                          end, <[id := patched env d fields]> s)
                    else (error_response 422 "unprocessable", s)
                | _ => (error_response 422 "unprocessable", s)
                end
            end
        end
    end.
Proof.
  intros Hp Hm. unfold wsgi_app.
  rewrite (dispatch_guarded req s _ _ (guarded_update env req id Hp Hm)).
  destruct (authenticate env "patch:drinks" req) as [payload|e] eqn:Hauth.
  - rewrite (requires_auth_passes _ (λ p, update_drink env p id) _ _ _ Hauth).
    rewrite update_drink_except, update_drink_try_eq.
    destruct (json_body req) as [body| |]; try done.
    destruct (s !! id) as [d|]; [|done].
    destruct body; try done.
    destruct (table_accepts env _ _); [|done].
    unfold fmap, outcome_fmap, long. by destruct (json_loads env _).
  - by rewrite (requires_auth_rejects _ _ _ _ _ Hauth).
Qed.

Lemma long_status row r :
  long env row = Return r → status (success_drinks r) = 200.
Proof. done. Qed.

(** What a [PATCH] leaves in the table: the table as it was, with a
    response that is not a success, or the patched row in place of the
    stored one. *)
Lemma patch_outcome req s id d :
  path req = UrlDrinksId id → method req = PATCH → s !! id = Some d →
  ((wsgi_app env req s).2 = s ∧ status (wsgi_app env req s).1 ≠ 200) ∨
  (∃ fields, json_body req = JsonValue (JObj fields) ∧
             (wsgi_app env req s).2 = <[id := patched env d fields]> s).
Proof.
  intros Hp Hm Hs. rewrite (wsgi_app_patch _ _ _ Hp Hm), Hs.
  destruct (authenticate env "patch:drinks" req) as [payload|e] eqn:Hauth.
  - destruct (json_body req) as [body| |]; [|left; by split..].
    destruct body; try (left; by split).
    destruct (table_accepts env _ _); [|left; by split].
    right. by eexists.
  - left. split; [done|].
    apply authenticate_raises_auth_error in Hauth as [a ->]. done.
Qed.

(** C2: on a stored drink, a [PATCH /drinks/<id>] leaves the row under its
    id, leaves a field the body does not supply at its previous value,
    leaves every other row as it was, and, when it answers 200, has set
    each supplied field that is not [null] to the supplied value (the
    recipe serialized). *)
Theorem update_changes_only_supplied_fields req s id d :
  path req = UrlDrinksId id → method req = PATCH → s !! id = Some d →
  ∃ d',
    (wsgi_app env req s).2 !! id = Some d' ∧
    (body_field req "title" = None → title d' = title d) ∧
    (body_field req "recipe" = None → recipe d' = recipe d) ∧
    (∀ j, j ≠ id → (wsgi_app env req s).2 !! j = s !! j) ∧
    (status (wsgi_app env req s).1 = 200 →
       (∀ v, body_field req "title" = Some v → v ≠ JNull → title d' = v) ∧
       (∀ v, body_field req "recipe" = Some v → v ≠ JNull →
             recipe d' = json_dumps env v)).
Proof.
  intros Hp Hm Hs.
  destruct (patch_outcome _ _ _ _ Hp Hm Hs) as [[-> Hst]|[fields [Hb ->]]].
  - exists d. by repeat split.
  - exists (patched env d fields). unfold body_field. rewrite Hb.
    split; [apply lookup_insert_eq|]. simpl.
    split; [by intros ->|]. split; [by intros ->|].
    split; [intros j Hj; by apply lookup_insert_ne|].
    intros _. split; intros v -> Hv; by destruct v.
Qed.

(** C10: on a stored drink, a [PATCH] body that carries [null] under
    [title] (or under [recipe]) leaves that field of the stored row at its
    previous value. *)
Theorem null_field_is_left_unchanged req s id d fields :
  path req = UrlDrinksId id → method req = PATCH → s !! id = Some d →
  json_body req = JsonValue (JObj fields) →
  ∃ d',
    (wsgi_app env req s).2 !! id = Some d' ∧
    (assoc "title" fields = Some JNull → title d' = title d) ∧
    (assoc "recipe" fields = Some JNull → recipe d' = recipe d).
Proof.
  intros Hp Hm Hs Hb.
  destruct (patch_outcome _ _ _ _ Hp Hm Hs) as [[-> Hst]|[fields' [Hb' ->]]].
  - exists d. by repeat split.
  - exists (patched env d fields'). rewrite Hb in Hb'. simplify_eq.
    split; [apply lookup_insert_eq|]. simpl. by split; intros ->.
Qed.

(** C4, as the code has it: an authorized [PATCH /drinks/<id>] on an id
    that matches no stored drink leaves the table as it was, and answers
    the 404 envelope whenever [request.get_json()] returns; when reading
    the body raises, the response carries that error's status, 400 or 415,
    instead. *)
Theorem update_of_missing_drink req s id payload :
  path req = UrlDrinksId id → method req = PATCH →
  authenticate env "patch:drinks" req = Return payload →
  s !! id = None →
  (wsgi_app env req s).2 = s ∧
  (wsgi_app env req s).1 =
    match json_body req with
    | JsonValue _ => error_response 404 "resource not found"
    | JsonBadRequest => default_response 400
    | JsonUnsupportedMediaType => default_response 415
    end.
Proof.
  intros Hp Hm Hauth Hs. rewrite (wsgi_app_patch _ _ _ Hp Hm), Hauth, Hs.
  by destruct (json_body req).
Qed.

(** *** [POST /drinks] *)

Lemma max_id_bound s k : is_Some (s !! k) → k ≤ max_id s.
Proof.
  unfold max_id. revert k.
  apply (map_fold_weak_ind (λ r (m : store), ∀ k, is_Some (m !! k) → k ≤ r)).
  - intros k [d Hd]. by rewrite lookup_empty in Hd.
  - intros i d m r Hi IH k Hk. destruct (decide (i = k)) as [->|Hne]; [lia|].
    rewrite lookup_insert_ne in Hk by done. specialize (IH k Hk). lia.
Qed.

Lemma next_id_fresh s : s !! next_id s = None.
Proof.
  destruct (s !! next_id s) as [d|] eqn:H; [|done].
  assert (next_id s ≤ max_id s) by (apply max_id_bound; eauto).
  unfold next_id in *. lia.
Qed.

Lemma create_drink_try_eq req s :
  create_drink_try env req s =
    match json_body req with
    | JsonBadRequest => (Raise (HTTPException 400), s)
    | JsonUnsupportedMediaType => (Raise (HTTPException 415), s)
    | JsonValue (JObj fields) =>
        if table_accepts env s (new_drink env fields)
        then (success_drinks <$> long env (next_id s, new_drink env fields),
              <[next_id s := new_drink env fields]> s)
        else (Raise (PyError SQLAlchemyError), s)
    | JsonValue _ => (Raise (PyError AttributeError), s)
    end.
Proof.
  unfold create_drink_try, get_json, insert, py_get, new_drink. unfold_monad.
  destruct (json_body req) as [body| |]; try done.
  destruct body as [| | | | |fields]; try done. simpl.
  destruct (table_accepts env _ _); [|done].
  unfold fmap, outcome_fmap. by destruct (long env _).
Qed.

Lemma create_drink_except payload req s :
  create_drink env payload req s =
    match create_drink_try env req s with
    | (Return r, s') => (Return r, s')
    | (Raise _, s') => (Raise (HTTPException 422), s')
    end.
Proof.
  unfold create_drink, try_except.
  by destruct (create_drink_try env req s) as [[r|e] s'].
Qed.

(** C5: an authorized [POST /drinks] whose body is an object, whose row the
    table takes and whose long projection reads back answers
    [{success: true, drinks: [d]}] with that row in long projection, and has
    written exactly one row, under an id not in use before, with the
    supplied title and the serialized supplied recipe.  A 200 is answered in
    that case only.  Whenever the [try] block raises, the response is the
    422 envelope: so for a body that cannot be read or is not an object (the
    table is then as it was) and for a row the table rejects (likewise). *)
Theorem create_persists_one_drink req s payload :
  path req = UrlDrinks → method req = POST →
  authenticate env "post:drinks" req = Return payload →
  (∀ fields l,
     json_body req = JsonValue (JObj fields) →
     table_accepts env s (new_drink env fields) = true →
     long env (next_id s, new_drink env fields) = Return l →
     wsgi_app env req s =
       (success_drinks l, <[next_id s := new_drink env fields]> s) ∧
     s !! next_id s = None ∧
     size (<[next_id s := new_drink env fields]> s) = S (size s) ∧
     title (new_drink env fields) = default JNull (assoc "title" fields) ∧
     recipe (new_drink env fields) =
       json_dumps env (default JNull (assoc "recipe" fields))) ∧
  (status (wsgi_app env req s).1 = 200 →
     ∃ fields l,
       json_body req = JsonValue (JObj fields) ∧
       table_accepts env s (new_drink env fields) = true ∧
       long env (next_id s, new_drink env fields) = Return l) ∧
  (∀ e s', create_drink_try env req s = (Raise e, s') →
     (wsgi_app env req s).1 = error_response 422 "unprocessable") ∧
  ((∀ fields, json_body req ≠ JsonValue (JObj fields)) →
     wsgi_app env req s = (error_response 422 "unprocessable", s)) ∧
  (∀ fields,
     json_body req = JsonValue (JObj fields) →
     table_accepts env s (new_drink env fields) = false →
     wsgi_app env req s = (error_response 422 "unprocessable", s)).
Proof.
  intros Hp Hm Hauth.
  assert (wsgi_app env req s =
            match create_drink_try env req s with
            | (Return r, s') => (r, s')
            | (Raise _, s') => (error_response 422 "unprocessable", s')
            end) as Happ.
  { unfold wsgi_app.
    rewrite (dispatch_guarded req s _ _ (guarded_create env req Hp Hm)).
    rewrite (requires_auth_passes _ _ _ _ _ Hauth), create_drink_except.
    by destruct (create_drink_try env req s) as [[r|e] s']. }
  split; [|split; [|split; [|split]]].
  - intros fields l Hb Hacc Hl. rewrite Happ, create_drink_try_eq, Hb, Hacc, Hl. simpl.
    repeat split; [apply next_id_fresh|].
    apply map_size_insert_None, next_id_fresh.
  - rewrite Happ, create_drink_try_eq.
    destruct (json_body req) as [[| | | | |fields]| |]; try done.
    destruct (table_accepts env _ _) eqn:Hacc; [|done].
    destruct (long env _) as [l|] eqn:Hl; [|done]. intros _. by exists fields, l.
  - intros e s' Htry. by rewrite Happ, Htry.
  - intros Hn. rewrite Happ, create_drink_try_eq.
    destruct (json_body req) as [[| | | | |fields]| |]; try done.
    by destruct (Hn fields).
  - intros fields Hb Hacc. by rewrite Happ, create_drink_try_eq, Hb, Hacc.
Qed.

(** *** [GET /drinks] *)

#[local] Instance by_id_trans : Transitive by_id.
Proof. unfold by_id. intros a b c. lia. Qed.

#[local] Instance by_id_total : Total by_id.
Proof. unfold by_id. intros a b. lia. Qed.

Lemma query_order_by_id_perm s : query_order_by_id s ≡ₚ map_to_list s.
Proof. apply merge_sort_Permutation. Qed.

Lemma query_order_by_id_sorted s : StronglySorted by_id (query_order_by_id s).
Proof. apply StronglySorted_merge_sort; apply _. Qed.

Lemma query_order_by_id_elem s id d :
  (id, d) ∈ query_order_by_id s ↔ s !! id = Some d.
Proof. by rewrite query_order_by_id_perm, elem_of_map_to_list. Qed.


Lemma color_and_parts_withholds_name r fields :
  color_and_parts r = JObj fields →
  fields.*1 = ["color"; "parts"] ∧ assoc "name" fields = None.
Proof. destruct r; simpl; intros H; simplify_eq; by split. Qed.




(** *** Every response of the application *)

Lemma get_drinks_returns req s r s' :
  get_drinks env req s = (Return r, s') → status r = 200.
Proof.
  unfold get_drinks. unfold_monad.
  destruct (mapM _ _); intros; by simplify_eq.
Qed.

Lemma get_drinks_detail_returns payload req s r s' :
  get_drinks_detail env payload req s = (Return r, s') → status r = 200.
Proof.
  unfold get_drinks_detail. unfold_monad.
  destruct (mapM _ _); intros; by simplify_eq.
Qed.

Lemma create_drink_returns payload req s r s' :
  create_drink env payload req s = (Return r, s') → status r = 200.
Proof.
  rewrite create_drink_except, create_drink_try_eq. unfold fmap, outcome_fmap.
  repeat case_match; intros; by simplify_eq.
Qed.

Lemma update_drink_returns payload id req s r s' :
  update_drink env payload id req s = (Return r, s') → status r = 200.
Proof.
  rewrite update_drink_except, update_drink_try_eq. unfold fmap, outcome_fmap.
  repeat case_match; intros; by simplify_eq.
Qed.

Lemma delete_drink_returns payload id req s r s' :
  delete_drink payload id req s = (Return r, s') → status r = 200.
Proof.
  destruct (s !! id) as [d|] eqn:H.
  - rewrite (delete_drink_found _ _ _ _ _ H). intros; by simplify_eq.
  - by rewrite (delete_drink_missing _ _ _ _ H).
Qed.

Lemma requires_auth_returns permission (f : Claims → M response) req s r s' :
  (∀ payload, f payload req s = (Return r, s') → status r = 200) →
  requires_auth env permission f req s = (Return r, s') → status r = 200.
Proof.
  intros Hf. destruct (authenticate env permission req) as [payload|e] eqn:Hauth.
  - rewrite (requires_auth_passes _ _ _ _ _ Hauth). apply Hf.
  - by rewrite (requires_auth_rejects _ _ _ _ _ Hauth).
Qed.

Lemma dispatch_returns req s r s' :
  dispatch_request env req s = (Return r, s') → status r = 200.
Proof.
  unfold dispatch_request. unfold_monad.
  destruct (path req), (method req); try done;
    first [ apply get_drinks_returns
          | apply requires_auth_returns; intros payload;
            first [ apply get_drinks_detail_returns
                  | apply create_drink_returns
                  | apply update_drink_returns
                  | apply delete_drink_returns ] ].
Qed.

(** C8: a response with status 401, 403, 404 or 422, whether it is what
    the error handlers make of an exception or what the application sends
    for a request, has the body [{success: false, error: <status>,
    message: <string>}], with the status of the response under [error]. *)
Theorem error_responses_carry_the_envelope r :
  sent env r → status r ∈ handled_codes →
  ∃ message, content r = Json (envelope (status r) message).
Proof.
  assert (∀ e, status (handle_user_exception e) ∈ handled_codes →
               ∃ message,
                 content (handle_user_exception e) =
                   Json (envelope (status (handle_user_exception e)) message)) as He.
  { intros e [message Hm]%handle_registered. exists message. by rewrite Hm at 1. }
  destruct 1 as [e|req s]; [apply He|].
  unfold wsgi_app.
  destruct (dispatch_request env req s) as [[r|e] s'] eqn:Hd; simpl; [|apply He].
  rewrite (dispatch_returns _ _ _ _ Hd). unfold handled_codes.
  rewrite list_elem_of_In. simpl. intros H; exfalso; lia.
Qed.
End Facts.

(** ** The statements at work on the sample menu *)

Section Runs.
Import Sample.

Lemma auth_runs_before_the_view_run :
  guarded_endpoint env (barista DELETE (UrlDrinksId 2) (JsonValue JNull))
    "delete:drinks" (λ payload, delete_drink payload 2) ∧
  match authenticate env "delete:drinks" (barista DELETE (UrlDrinksId 2) (JsonValue JNull)) with
  | Return payload =>
      dispatch_request env (barista DELETE (UrlDrinksId 2) (JsonValue JNull)) menu =
        delete_drink payload 2 (barista DELETE (UrlDrinksId 2) (JsonValue JNull)) menu
  | Raise e =>
      (∃ a, e = AuthErrorExn a) ∧
      dispatch_request env (barista DELETE (UrlDrinksId 2) (JsonValue JNull)) menu =
        (Raise e, menu) ∧
      ∀ other : Claims → M response,
        requires_auth env "delete:drinks" other
          (barista DELETE (UrlDrinksId 2) (JsonValue JNull)) menu = (Raise e, menu)
  end.
Proof.
  split; [by constructor|].
  apply (auth_runs_before_the_view env _ menu "delete:drinks" (λ payload, delete_drink payload 2)).
  by constructor.
Defined.

Lemma update_changes_only_supplied_fields_run :
  path (manager PATCH (UrlDrinksId 2) (JsonValue rename_to_tea)) = UrlDrinksId 2 ∧
  method (manager PATCH (UrlDrinksId 2) (JsonValue rename_to_tea)) = PATCH ∧
  menu !! 2 = Some water ∧
  ∃ d',
    (wsgi_app env (manager PATCH (UrlDrinksId 2) (JsonValue rename_to_tea)) menu).2 !! 2
      = Some d' ∧
    (body_field (manager PATCH (UrlDrinksId 2) (JsonValue rename_to_tea)) "title" = None →
     title d' = title water) ∧
    (body_field (manager PATCH (UrlDrinksId 2) (JsonValue rename_to_tea)) "recipe" = None →
     recipe d' = recipe water) ∧
    (∀ j, j ≠ 2 →
       (wsgi_app env (manager PATCH (UrlDrinksId 2) (JsonValue rename_to_tea)) menu).2 !! j
         = menu !! j) ∧
    (status (wsgi_app env (manager PATCH (UrlDrinksId 2) (JsonValue rename_to_tea)) menu).1
       = 200 →
       (∀ v, body_field (manager PATCH (UrlDrinksId 2) (JsonValue rename_to_tea)) "title"
               = Some v → v ≠ JNull → title d' = v) ∧
       (∀ v, body_field (manager PATCH (UrlDrinksId 2) (JsonValue rename_to_tea)) "recipe"
               = Some v → v ≠ JNull → recipe d' = json_dumps env v)).
Proof.
  split; [reflexivity|]. split; [reflexivity|]. split; [vm_compute; reflexivity|].
  apply (update_changes_only_supplied_fields env); [reflexivity|reflexivity|].
  vm_compute; reflexivity.
Defined.
Lemma delete_removes_exactly_that_drink_run :
  path (manager DELETE (UrlDrinksId 2) (JsonValue JNull)) = UrlDrinksId 2 ∧
  method (manager DELETE (UrlDrinksId 2) (JsonValue JNull)) = DELETE ∧
  authenticate env "delete:drinks" (manager DELETE (UrlDrinksId 2) (JsonValue JNull))
    = Return manager_claims ∧
  (∀ d, menu !! 2 = Some d →
     wsgi_app env (manager DELETE (UrlDrinksId 2) (JsonValue JNull)) menu =
       (jsonify (JObj [("success", JBool true); ("delete", JNum 2)]), delete 2 menu) ∧
     delete 2 menu !! 2 = None ∧
     (∀ j, j ≠ 2 → delete 2 menu !! j = menu !! j) ∧
     wsgi_app env (manager DELETE (UrlDrinksId 2) (JsonValue JNull)) (delete 2 menu) =
       (error_response 404 "resource not found", delete 2 menu)) ∧
  (menu !! 2 = None →
     wsgi_app env (manager DELETE (UrlDrinksId 2) (JsonValue JNull)) menu =
       (error_response 404 "resource not found", menu)).
Proof.
  split; [reflexivity|]. split; [reflexivity|]. split; [vm_compute; reflexivity|].
  apply (delete_removes_exactly_that_drink env _ menu 2 manager_claims);
    [reflexivity|reflexivity|vm_compute; reflexivity].
Defined.

Lemma null_field_is_left_unchanged_run :
  path (manager PATCH (UrlDrinksId 7) (JsonValue null_title)) = UrlDrinksId 7 ∧
  method (manager PATCH (UrlDrinksId 7) (JsonValue null_title)) = PATCH ∧
  menu !! 7 = Some latte ∧
  json_body (manager PATCH (UrlDrinksId 7) (JsonValue null_title))
    = JsonValue (JObj [("title", JNull); ("recipe", JArr [])]) ∧
  ∃ d',
    (wsgi_app env (manager PATCH (UrlDrinksId 7) (JsonValue null_title)) menu).2 !! 7
      = Some d' ∧
    (assoc "title" [("title", JNull); ("recipe", JArr [])] = Some JNull →
     title d' = title latte) ∧
    (assoc "recipe" [("title", JNull); ("recipe", JArr [])] = Some JNull →
     recipe d' = recipe latte).
Proof.
  split; [reflexivity|]. split; [reflexivity|]. split; [vm_compute; reflexivity|].
  split; [reflexivity|].
  apply (null_field_is_left_unchanged env);
    [reflexivity|reflexivity|vm_compute; reflexivity|reflexivity].
Defined.

Lemma update_of_missing_drink_run :
  path (manager PATCH (UrlDrinksId 3) (JsonValue rename_to_tea)) = UrlDrinksId 3 ∧
  method (manager PATCH (UrlDrinksId 3) (JsonValue rename_to_tea)) = PATCH ∧
  authenticate env "patch:drinks" (manager PATCH (UrlDrinksId 3) (JsonValue rename_to_tea))
    = Return manager_claims ∧
  menu !! 3 = None ∧
  (wsgi_app env (manager PATCH (UrlDrinksId 3) (JsonValue rename_to_tea)) menu).2 = menu ∧
  (wsgi_app env (manager PATCH (UrlDrinksId 3) (JsonValue rename_to_tea)) menu).1 =
    match json_body (manager PATCH (UrlDrinksId 3) (JsonValue rename_to_tea)) with
    | JsonValue _ => error_response 404 "resource not found"
    | JsonBadRequest => default_response 400
    | JsonUnsupportedMediaType => default_response 415
    end.
Proof.
  split; [reflexivity|]. split; [reflexivity|]. split; [vm_compute; reflexivity|].
  split; [vm_compute; reflexivity|].
  apply (update_of_missing_drink env _ menu 3 manager_claims);
    [reflexivity|reflexivity|vm_compute; reflexivity|vm_compute; reflexivity].
Defined.

(** C4, as the claim has it, fails: an authorized [PATCH] on an id that
    matches no stored drink, with a body that [request.get_json()] rejects,
    is answered 400 and not 404. *)
Lemma unreadable_patch_of_missing_drink_is_400 :
  authenticate env "patch:drinks" (manager PATCH (UrlDrinksId 3) JsonBadRequest)
    = Return manager_claims ∧
  menu !! 3 = None ∧
  (wsgi_app env (manager PATCH (UrlDrinksId 3) JsonBadRequest) menu).1 = default_response 400 ∧
  status (wsgi_app env (manager PATCH (UrlDrinksId 3) JsonBadRequest) menu).1 ≠ 404.
Proof. repeat split; try (vm_compute; reflexivity). vm_compute. discriminate. Qed.

Lemma create_persists_one_drink_run :
  path (manager POST UrlDrinks (JsonValue tea)) = UrlDrinks ∧
  method (manager POST UrlDrinks (JsonValue tea)) = POST ∧
  authenticate env "post:drinks" (manager POST UrlDrinks (JsonValue tea))
    = Return manager_claims ∧
  (∀ fields l,
     json_body (manager POST UrlDrinks (JsonValue tea)) = JsonValue (JObj fields) →
     table_accepts env menu (new_drink env fields) = true →
     long env (next_id menu, new_drink env fields) = Return l →
     wsgi_app env (manager POST UrlDrinks (JsonValue tea)) menu =
       (success_drinks l, <[next_id menu := new_drink env fields]> menu) ∧
     menu !! next_id menu = None ∧
     size (<[next_id menu := new_drink env fields]> menu) = S (size menu) ∧
     title (new_drink env fields) = default JNull (assoc "title" fields) ∧
     recipe (new_drink env fields) =
       json_dumps env (default JNull (assoc "recipe" fields))) ∧
  (status (wsgi_app env (manager POST UrlDrinks (JsonValue tea)) menu).1 = 200 →
     ∃ fields l,
       json_body (manager POST UrlDrinks (JsonValue tea)) = JsonValue (JObj fields) ∧
       table_accepts env menu (new_drink env fields) = true ∧
       long env (next_id menu, new_drink env fields) = Return l) ∧
  (∀ e s', create_drink_try env (manager POST UrlDrinks (JsonValue tea)) menu = (Raise e, s') →
     (wsgi_app env (manager POST UrlDrinks (JsonValue tea)) menu).1
       = error_response 422 "unprocessable") ∧
  ((∀ fields, json_body (manager POST UrlDrinks (JsonValue tea)) ≠ JsonValue (JObj fields)) →
     wsgi_app env (manager POST UrlDrinks (JsonValue tea)) menu
       = (error_response 422 "unprocessable", menu)) ∧
  (∀ fields,
     json_body (manager POST UrlDrinks (JsonValue tea)) = JsonValue (JObj fields) →
     table_accepts env menu (new_drink env fields) = false →
     wsgi_app env (manager POST UrlDrinks (JsonValue tea)) menu
       = (error_response 422 "unprocessable", menu)).
Proof.
  split; [reflexivity|]. split; [reflexivity|]. split; [vm_compute; reflexivity|].
  apply (create_persists_one_drink env _ menu manager_claims);
    [reflexivity|reflexivity|vm_compute; reflexivity].
Defined.


Lemma error_responses_carry_the_envelope_run :
  sent env (wsgi_app env (manager DELETE (UrlDrinksId 3) (JsonValue JNull)) menu).1 ∧
  status (wsgi_app env (manager DELETE (UrlDrinksId 3) (JsonValue JNull)) menu).1
    ∈ handled_codes ∧
  ∃ message,
    content (wsgi_app env (manager DELETE (UrlDrinksId 3) (JsonValue JNull)) menu).1 =
      Json (envelope
              (status (wsgi_app env (manager DELETE (UrlDrinksId 3) (JsonValue JNull)) menu).1)
              message).
Proof.
  assert (status (wsgi_app env (manager DELETE (UrlDrinksId 3) (JsonValue JNull)) menu).1
            ∈ handled_codes) as Hin.
  { apply list_elem_of_In. vm_compute. tauto. }
  split; [constructor|]. split; [exact Hin|].
  apply (error_responses_carry_the_envelope env); [constructor|exact Hin].
Defined.


(** The delete view over a [drink.delete()] that raises. *)

Example failing_delete_is_unprocessable :
  delete_drink_try_with (λ _, raise (PyError SQLAlchemyError)) 2
    (manager DELETE (UrlDrinksId 2) (JsonValue JNull)) menu
    = (Raise (PyError SQLAlchemyError), menu) ∧
  delete_drink_with (λ _, raise (PyError SQLAlchemyError)) manager_claims 2
    (manager DELETE (UrlDrinksId 2) (JsonValue JNull)) menu
    = (Raise (HTTPException 422), menu).
Proof. split; vm_compute; reflexivity. Qed.

Example conflicting_delete_keeps_409 :
  delete_drink_with (λ _, raise (HTTPException 409)) manager_claims 2
    (manager DELETE (UrlDrinksId 2) (JsonValue JNull)) menu
    = (Raise (HTTPException 409), menu).
Proof. vm_compute. reflexivity. Qed.

(** The sample menu through the five routes. *)

Example list_is_public_and_short :
  (wsgi_app env (anonymous GET UrlDrinks (JsonValue JNull)) menu).1 =
    jsonify (JObj [("success", JBool true);
      ("drinks", JArr [
         JObj [("id", JNum 2); ("title", JStr "water");
               ("recipe", JArr [JObj [("color", JStr "blue"); ("parts", JNum 1)]])];
         JObj [("id", JNum 7); ("title", JStr "latte");
               ("recipe", JArr [JObj [("color", JStr "grey"); ("parts", JNum 3)];
                                JObj [("color", JStr "brown"); ("parts", JNum 1)]])]])]).
Proof. vm_compute. reflexivity. Qed.

Example rename_keeps_the_recipe :
  (wsgi_app env (manager PATCH (UrlDrinksId 2) (JsonValue rename_to_tea)) menu).2 !! 2 =
    Some {| title := JStr "tea"; recipe := recipe water |}.
Proof. vm_compute. reflexivity. Qed.

Example created_drink_gets_next_id :
  (wsgi_app env (manager POST UrlDrinks (JsonValue tea)) menu).1 =
    success_drinks (JObj [("id", JNum 8); ("title", JStr "tea");
                          ("recipe", JArr [ingredient "tea" "green" 2])]).
Proof. vm_compute. reflexivity. Qed.

Example create_without_title_is_unprocessable :
  wsgi_app env (manager POST UrlDrinks (JsonValue (JObj []))) menu =
    (error_response 422 "unprocessable", menu).
Proof. vm_compute. reflexivity. Qed.

Example update_with_list_body_is_unprocessable :
  update_drink_try env 2 (manager PATCH (UrlDrinksId 2) (JsonValue (JArr []))) menu =
    (Raise (PyError AttributeError), menu) ∧
  wsgi_app env (manager PATCH (UrlDrinksId 2) (JsonValue (JArr []))) menu =
    (error_response 422 "unprocessable", menu).
Proof. split; vm_compute; reflexivity. Qed.

Example update_with_unreadable_body_keeps_400 :
  update_drink_try env 2 (manager PATCH (UrlDrinksId 2) JsonBadRequest) menu =
    (Raise (HTTPException 400), menu) ∧
  wsgi_app env (manager PATCH (UrlDrinksId 2) JsonBadRequest) menu =
    (default_response 400, menu).
Proof. split; vm_compute; reflexivity. Qed.

Example missing_scope_is_answered_500 :
  dispatch_request env (barista DELETE (UrlDrinksId 2) (JsonValue JNull)) menu =
    (Raise (AuthErrorExn (auth_error InsufficientScope "Permission not found.")), menu) ∧
  wsgi_app env (barista DELETE (UrlDrinksId 2) (JsonValue JNull)) menu =
    (default_response 500, menu).
Proof. split; vm_compute; reflexivity. Qed.

Example unknown_url_is_not_found :
  wsgi_app env (anonymous GET UrlOther (JsonValue JNull)) menu =
    (error_response 404 "resource not found", menu).
Proof. vm_compute. reflexivity. Qed.
End Runs.

(** ** Further properties of the views *)

Section Further.
Context (env : Env).
Implicit Types (req : request) (s : store) (e : exn) (id : Z) (d : Drink).

(** *** Each route, from the request to the response and the table *)

Lemma wsgi_app_post req s :
  path req = UrlDrinks → method req = POST →
  wsgi_app env req s =
    match authenticate env "post:drinks" req with
    | Raise e => (handle_user_exception e, s)
    | Return _ =>
        match json_body req with
        | JsonValue (JObj fields) =>
            if table_accepts env s (new_drink env fields)
            then (match long env (next_id s, new_drink env fields) with
                  | Return l => success_drinks l
                  | Raise _ => error_response 422 "unprocessable"
                  end, <[next_id s := new_drink env fields]> s)
            else (error_response 422 "unprocessable", s)
        | _ => (error_response 422 "unprocessable", s)
        end
    end.
Proof.
  intros Hp Hm. unfold wsgi_app.
  rewrite (dispatch_guarded env req s _ _ (guarded_create env req Hp Hm)).
  destruct (authenticate env "post:drinks" req) as [payload|e] eqn:Hauth.
  - rewrite (requires_auth_passes env _ _ _ _ _ Hauth).
    rewrite create_drink_except, create_drink_try_eq.
    destruct (json_body req) as [body| |]; try done.
    destruct body; try done.
    destruct (table_accepts env _ _); [|done].
    unfold fmap, outcome_fmap. by destruct (long env _).
  - by rewrite (requires_auth_rejects env _ _ _ _ _ Hauth).
Qed.

Lemma wsgi_app_delete req s id :
  path req = UrlDrinksId id → method req = DELETE →
  wsgi_app env req s =
    match authenticate env "delete:drinks" req with
    | Raise e => (handle_user_exception e, s)
    | Return _ =>
        match s !! id with
        | Some _ =>
            (jsonify (JObj [("success", JBool true); ("delete", JNum id)]), delete id s)
        | None => (error_response 404 "resource not found", s)
        end
    end.
Proof.
  intros Hp Hm. unfold wsgi_app.
  rewrite (dispatch_guarded env req s _ _ (guarded_delete env req id Hp Hm)).
  destruct (authenticate env "delete:drinks" req) as [payload|e] eqn:Hauth.
  - rewrite (requires_auth_passes env _ (λ p, delete_drink p id) _ _ _ Hauth).
    destruct (s !! id) as [d|] eqn:Hs.
    + by rewrite (delete_drink_found _ _ _ _ _ Hs).
    + by rewrite (delete_drink_missing _ _ _ _ Hs).
  - by rewrite (requires_auth_rejects env _ _ _ _ _ Hauth).
Qed.

Lemma wsgi_app_detail req s :
  path req = UrlDrinksDetail → method req = GET →
  wsgi_app env req s =
    match authenticate env "get:drinks-detail" req with
    | Raise e => (handle_user_exception e, s)
    | Return _ =>
        match mapM (long env) (query_order_by_id s) with
        | Return drinks =>
            (jsonify (JObj [("success", JBool true); ("drinks", JArr drinks)]), s)
        | Raise e => (handle_user_exception e, s)
        end
    end.
Proof.
  intros Hp Hm. unfold wsgi_app.
  rewrite (dispatch_guarded env req s _ _ (guarded_drinks_detail env req Hp Hm)).
  destruct (authenticate env "get:drinks-detail" req) as [payload|e] eqn:Hauth.
  - rewrite (requires_auth_passes env _ _ _ _ _ Hauth).
    unfold get_drinks_detail. unfold_monad. by destruct (mapM _ _).
  - by rewrite (requires_auth_rejects env _ _ _ _ _ Hauth).
Qed.

Lemma wsgi_app_list req s :
  path req = UrlDrinks → method req = GET →
  wsgi_app env req s =
    match mapM (short env) (query_order_by_id s) with
    | Return drinks =>
        (jsonify (JObj [("success", JBool true); ("drinks", JArr drinks)]), s)
    | Raise e => (handle_user_exception e, s)
    end.
Proof.
  intros Hp Hm. unfold wsgi_app, dispatch_request, get_drinks. unfold_monad.
  rewrite Hp, Hm. by destruct (mapM _ _).
Qed.

(** The five routes, and what every other request gets. *)
Inductive routed : request → Prop :=
  | routed_list req : path req = UrlDrinks → method req = GET → routed req
  | routed_detail req : path req = UrlDrinksDetail → method req = GET → routed req
  | routed_create req : path req = UrlDrinks → method req = POST → routed req
  | routed_update req id : path req = UrlDrinksId id → method req = PATCH → routed req
  | routed_delete req id : path req = UrlDrinksId id → method req = DELETE → routed req.

Lemma wsgi_app_unrouted req s :
  ¬ routed req →
  wsgi_app env req s =
    (match path req with
     | UrlOther => error_response 404 "resource not found"
     | _ => default_response 405
     end, s).
Proof.
  intros Hn. unfold wsgi_app, dispatch_request. unfold_monad.
  destruct (path req) eqn:Hp, (method req) eqn:Hm; try done;
    exfalso; apply Hn; eauto using routed.
Qed.

Lemma routed_dec req : routed req ∨ ¬ routed req.
Proof.
  destruct (path req) eqn:Hp, (method req) eqn:Hm;
    first [ left; by eauto using routed
          | right; inversion 1; congruence ].
Qed.

Lemma wsgi_app_table_step req s : table_step env req s (wsgi_app env req s).2.
Proof.
  destruct (routed_dec req) as [Hr|Hn]; [|rewrite (wsgi_app_unrouted _ _ Hn); constructor].
  destruct Hr as [req Hp Hm|req Hp Hm|req Hp Hm|req id Hp Hm|req id Hp Hm].
  - rewrite (wsgi_app_list _ _ Hp Hm). destruct (mapM _ _); constructor.
  - rewrite (wsgi_app_detail _ _ Hp Hm).
    destruct (authenticate _ _ _); [destruct (mapM _ _)|]; constructor.
  - rewrite (wsgi_app_post _ _ Hp Hm).
    destruct (authenticate _ _ _) as [payload|] eqn:Hauth; [|constructor].
    destruct (json_body req) as [[| | | | |fields]| |] eqn:Hb; try constructor.
    destruct (table_accepts env _ _) eqn:Hacc; [|constructor].
    by eapply step_insert.
  - rewrite (wsgi_app_patch env _ _ _ Hp Hm).
    destruct (authenticate _ _ _) as [payload|] eqn:Hauth; [|constructor].
    destruct (json_body req) as [body| |] eqn:Hb; try constructor.
    destruct (s !! id) as [d|] eqn:Hs; [|constructor].
    destruct body as [| | | | |fields]; try constructor.
    destruct (table_accepts env _ _) eqn:Hacc; [|constructor].
    by eapply step_update.
  - rewrite (wsgi_app_delete _ _ _ Hp Hm).
    destruct (authenticate _ _ _) as [payload|] eqn:Hauth; [|constructor].
    destruct (s !! id) as [d|] eqn:Hs; [|constructor].
    by eapply step_delete.
Qed.

Lemma mapM_raises {A B} (f : A → outcome B) (l : list A) e :
  mapM f l = Raise e → ∃ x, x ∈ l ∧ f x = Raise e.
Proof.
  induction l as [|x l IH]; [done|]. simpl. unfold_monad.
  destruct (f x) as [y|e'] eqn:Hx.
  - destruct (mapM f l) as [ys|e''] eqn:Hl; [done|].
    intros; simplify_eq. destruct IH as [x' [Hin Hx']]; [done|].
    exists x'. split; [by right|done].
  - intros; simplify_eq. exists x. split; [by left|done].
Qed.

Lemma short_raises row e : short env row = Raise e → e = PyError TypeError.
Proof. unfold short. case_match; intros; by simplify_eq. Qed.

Lemma long_raises row e : long env row = Raise e → e = PyError JSONDecodeError.
Proof. unfold long. case_match; intros; by simplify_eq. Qed.

Lemma answer_auth_error permission req e :
  authenticate env permission req = Raise e → answer (handle_user_exception e).
Proof.
  intros [a ->]%authenticate_raises_auth_error.
  apply (answer_page 500). apply list_elem_of_In; simpl; tauto.
Qed.

Lemma answer_py_error p : answer (handle_user_exception (PyError p)).
Proof. apply (answer_page 500). apply list_elem_of_In; simpl; tauto. Qed.

Lemma answer_422 : answer (error_response 422 "unprocessable").
Proof. apply answer_envelope. apply list_elem_of_In; simpl; tauto. Qed.

Lemma answer_404 : answer (error_response 404 "resource not found").
Proof. apply answer_envelope. apply list_elem_of_In; simpl; tauto. Qed.

Lemma answer_drinks l : answer (success_drinks l).
Proof. by apply answer_success. Qed.

Lemma wsgi_app_answer req s : answer (wsgi_app env req s).1.
Proof.
  destruct (routed_dec req) as [Hr|Hn].
  - destruct Hr as [req Hp Hm|req Hp Hm|req Hp Hm|req id Hp Hm|req id Hp Hm].
    + rewrite (wsgi_app_list _ _ Hp Hm).
      destruct (mapM _ _) as [drinks|e] eqn:Hd; [by apply answer_success|].
      apply mapM_raises in Hd as [row [_ ->%short_raises]]. apply answer_py_error.
    + rewrite (wsgi_app_detail _ _ Hp Hm).
      destruct (authenticate _ _ _) eqn:Hauth; [|by eapply answer_auth_error].
      destruct (mapM _ _) as [drinks|e] eqn:Hd; [by apply answer_success|].
      apply mapM_raises in Hd as [row [_ ->%long_raises]]. apply answer_py_error.
    + rewrite (wsgi_app_post _ _ Hp Hm).
      destruct (authenticate _ _ _) eqn:Hauth; [|by eapply answer_auth_error].
      destruct (json_body req) as [[| | | | |fields]| |]; try apply answer_422.
      destruct (table_accepts env _ _); [|apply answer_422].
      destruct (long env _); [apply answer_drinks|apply answer_422].
    + rewrite (wsgi_app_patch env _ _ _ Hp Hm).
      destruct (authenticate _ _ _) eqn:Hauth; [|by eapply answer_auth_error].
      destruct (json_body req) as [body| |];
        [|apply (answer_page 400); apply list_elem_of_In; simpl; tauto
         |apply (answer_page 415); apply list_elem_of_In; simpl; tauto].
      destruct (s !! id); [|apply answer_404].
      destruct body; try apply answer_422.
      destruct (table_accepts env _ _); [|apply answer_422].
      destruct (long env _); [apply answer_drinks|apply answer_422].
    + rewrite (wsgi_app_delete _ _ _ Hp Hm).
      destruct (authenticate _ _ _) eqn:Hauth; [|by eapply answer_auth_error].
      destruct (s !! id); [by apply answer_success|apply answer_404].
  - rewrite (wsgi_app_unrouted _ _ Hn).
    destruct (path req); first [apply answer_404|apply (answer_page 405)];
      apply list_elem_of_In; simpl; tauto.
Qed.

(** *** Properties *)

(** X1: every response to a [GET], [POST], [PATCH], [DELETE] or [PUT]
    request is a JSON object whose [success] field is [true] exactly when
    the status is 200, or a page without JSON whose status is 400, 405, 415
    or 500. *)
Theorem success_flag_agrees_with_status req s :
  method req ∈ [GET; POST; PATCH; DELETE; PUT] →
  match content (wsgi_app env req s).1 with
  | Json j =>
      ∃ fields, j = JObj fields ∧
        assoc "success" fields =
          Some (JBool (bool_decide (status (wsgi_app env req s).1 = 200)))
  | DefaultPage => status (wsgi_app env req s).1 ∈ [400; 405; 415; 500]
  end.
Proof.
  intros _.
  destruct (wsgi_app_answer req s) as [fields Hf|c message Hc|c Hc]; simpl.
  - by exists fields.
  - eexists. split; [reflexivity|]. simpl.
    rewrite bool_decide_eq_false_2; [done|].
    intros ->. apply list_elem_of_In in Hc. simpl in Hc. lia.
  - done.
Qed.

(** X2: a [POST /drinks] that holds its permission is answered 200 or with
    the 422 envelope and nothing else.  When the body is not a JSON object
    (unreadable, [null], a list, a string, a number), or when the table
    rejects the row, the answer is the 422 envelope and the table is as it
    was. *)
Theorem create_answers_200_or_422 req s payload :
  path req = UrlDrinks → method req = POST →
  authenticate env "post:drinks" req = Return payload →
  (status (wsgi_app env req s).1 = 200 ∨
   (wsgi_app env req s).1 = error_response 422 "unprocessable") ∧
  ((∀ fields, json_body req ≠ JsonValue (JObj fields)) →
   wsgi_app env req s = (error_response 422 "unprocessable", s)) ∧
  (∀ fields, json_body req = JsonValue (JObj fields) →
     table_accepts env s (new_drink env fields) = false →
     wsgi_app env req s = (error_response 422 "unprocessable", s)).
Proof.
  intros Hp Hm Hauth. rewrite (wsgi_app_post _ _ Hp Hm), Hauth.
  split; [|split].
  - destruct (json_body req) as [[| | | | |fields]| |]; auto.
    destruct (table_accepts env _ _); [|auto].
    destruct (long env _); auto.
  - intros Hn. destruct (json_body req) as [[| | | | |fields]| |]; try done.
    by destruct (Hn fields).
  - intros fields -> Hacc. by rewrite Hacc.
Qed.

(** X3: a [PATCH /drinks/<id>] that holds its permission reads the body
    before anything else: an unreadable body is answered with its own 400
    (or 415) whether or not the drink exists.  On a stored drink, a readable
    body that is not a JSON object is answered with the 422 envelope.  The
    table is as it was in each case. *)
Theorem update_checks_body_then_drink req s id payload :
  path req = UrlDrinksId id → method req = PATCH →
  authenticate env "patch:drinks" req = Return payload →
  (json_body req = JsonBadRequest → wsgi_app env req s = (default_response 400, s)) ∧
  (json_body req = JsonUnsupportedMediaType →
   wsgi_app env req s = (default_response 415, s)) ∧
  (∀ v, json_body req = JsonValue v → is_Some (s !! id) →
     (∀ fields, v ≠ JObj fields) →
     wsgi_app env req s = (error_response 422 "unprocessable", s)).
Proof.
  intros Hp Hm Hauth. rewrite (wsgi_app_patch env _ _ _ Hp Hm), Hauth.
  split; [by intros ->|]. split; [by intros ->|].
  intros v -> [d ->] Hn. destruct v as [| | | | |fields]; try done.
  by destruct (Hn fields).
Qed.

Lemma long_ok row :
  is_Some (json_loads env (recipe row.2)) →
  long env row = Return (long_projection env row).
Proof. intros [r Hr]. unfold long, long_projection. by rewrite Hr. Qed.

Lemma longs_ok rows :
  Forall (λ row : Z * Drink, is_Some (json_loads env (recipe row.2))) rows →
  mapM (long env) rows = Return (long_projection env <$> rows).
Proof.
  induction 1 as [|row rows Hrow _ IH]; [done|]. simpl.
  rewrite (long_ok _ Hrow). simpl. by rewrite IH.
Qed.

(** X4: over a table whose recipes all read back, a [GET /drinks-detail]
    that holds its permission answers 200 with every stored drink exactly
    once, by ascending id, each with its id, its title and its whole recipe;
    the table is left as it was. *)
Theorem get_drinks_detail_lists_all_by_id req s payload :
  path req = UrlDrinksDetail → method req = GET →
  authenticate env "get:drinks-detail" req = Return payload →
  (∀ id d, s !! id = Some d → is_Some (json_loads env (recipe d))) →
  ∃ rows,
    rows ≡ₚ map_to_list s ∧
    (∀ id d, (id, d) ∈ rows ↔ s !! id = Some d) ∧
    StronglySorted by_id rows ∧
    wsgi_app env req s =
      (jsonify (JObj [("success", JBool true);
                      ("drinks", JArr (long_projection env <$> rows))]), s).
Proof.
  intros Hp Hm Hauth Hok. exists (query_order_by_id s).
  split; [apply query_order_by_id_perm|].
  split; [apply query_order_by_id_elem|].
  split; [apply query_order_by_id_sorted|].
  rewrite (wsgi_app_detail _ _ Hp Hm), Hauth, longs_ok; [done|].
  apply Forall_forall. intros [id d] Hin. simpl.
  apply (Hok id), query_order_by_id_elem, Hin.
Qed.

(** X5: a request changes the table only if it is not a [GET], goes to one
    of the guarded endpoints, and passes the Token Verifier and the
    Permission Gate for that endpoint's permission. *)
Theorem writes_need_the_permission req s :
  (wsgi_app env req s).2 ≠ s →
  method req ≠ GET ∧
  ∃ permission view payload,
    guarded_endpoint env req permission view ∧
    authenticate env permission req = Return payload.
Proof.
  intros Hne.
  destruct (wsgi_app_table_step req s)
    as [|payload fields Hp Hm Hauth _ _|payload id d fields Hp Hm Hauth _ _ _
        |payload id d Hp Hm Hauth _]; [done|..];
    (split; [by rewrite Hm|]); do 3 eexists; (split; [|exact Hauth]).
  - by apply guarded_create.
  - by apply guarded_update.
  - by apply guarded_delete.
Qed.

(** X6: a request changes at most one row of the table: there is an id such
    that every other id holds after the request what it held before. *)
Theorem at_most_one_row_changes req s :
  ∃ k, ∀ j, j ≠ k → (wsgi_app env req s).2 !! j = s !! j.
Proof.
  destruct (wsgi_app_table_step req s)
    as [|payload fields _ _ _ _ _|payload id d fields _ _ _ _ _ _|payload id d _ _ _ _].
  - by exists 0.
  - exists (next_id s). intros j Hj. by rewrite lookup_insert_ne.
  - exists id. intros j Hj. by rewrite lookup_insert_ne.
  - exists id. intros j Hj. by rewrite lookup_delete_ne.
Qed.

(** X7: only a [POST] brings an id into the table and only a [DELETE] takes
    one out: an id that is stored after a request and was not before came
    with a [POST]; an id that was stored before and is not after went with a
    [DELETE]. *)
Theorem only_post_adds_only_delete_removes req s j :
  (s !! j = None → is_Some ((wsgi_app env req s).2 !! j) → method req = POST) ∧
  (is_Some (s !! j) → (wsgi_app env req s).2 !! j = None → method req = DELETE).
Proof.
  destruct (wsgi_app_table_step req s)
    as [|payload fields _ Hm _ _ _|payload id d fields _ Hm _ _ Hs _|payload id d _ Hm _ Hs].
  - split; [intros -> [? ?]|intros [? ->] ?]; done.
  - split; [done|]. intros Hj Hnone.
    apply lookup_insert_None in Hnone as [Hnone _]. rewrite Hnone in Hj. by destruct Hj.
  - split.
    + intros Hnone Hsome. apply lookup_insert_is_Some in Hsome as [<-|[_ Hsome]].
      * by rewrite Hs in Hnone.
      * rewrite Hnone in Hsome. by destruct Hsome.
    + intros Hj Hnone. apply lookup_insert_None in Hnone as [Hnone _].
      rewrite Hnone in Hj. by destruct Hj.
  - split; [|done]. intros Hnone Hsome.
    apply lookup_delete_is_Some in Hsome as [_ Hsome].
    rewrite Hnone in Hsome. by destruct Hsome.
Qed.

Lemma patched_twice d fields :
  patched env (patched env d fields) fields = patched env d fields.
Proof.
  unfold patched. simpl.
  destruct (assoc "title" fields) as [[]|], (assoc "recipe" fields) as [[]|]; done.
Qed.

(** X8: [PATCH /drinks/<id>] is idempotent: sent again to the table it left,
    the same request gets the same response and leaves the same table. *)
Theorem update_twice_is_update_once req s id :
  path req = UrlDrinksId id → method req = PATCH →
  wsgi_app env req (wsgi_app env req s).2 = wsgi_app env req s.
Proof.
  intros Hp Hm. rewrite (wsgi_app_patch env req s id Hp Hm).
  destruct (authenticate env "patch:drinks" req) as [payload|e] eqn:Hauth;
    [|simpl; by rewrite (wsgi_app_patch env _ _ _ Hp Hm), Hauth].
  destruct (json_body req) as [body| |] eqn:Hb;
    [|simpl; by rewrite (wsgi_app_patch env _ _ _ Hp Hm), Hauth, Hb..].
  destruct (s !! id) as [d|] eqn:Hs;
    [|simpl; by rewrite (wsgi_app_patch env _ _ _ Hp Hm), Hauth, Hb, Hs].
  destruct body as [| | | | |fields];
    try (simpl; by rewrite (wsgi_app_patch env _ _ _ Hp Hm), Hauth, Hb, Hs).
  destruct (table_accepts env _ _) eqn:Hacc;
    [|simpl; by rewrite (wsgi_app_patch env _ _ _ Hp Hm), Hauth, Hb, Hs, Hacc].
  simpl. rewrite (wsgi_app_patch env _ _ _ Hp Hm), Hauth, Hb.
  by rewrite lookup_insert_eq, patched_twice, delete_insert_eq, Hacc, insert_insert_eq.
Qed.

(** X9: a drink that a [POST /drinks] has just written can be deleted
    again, and the table is then what it was before the [POST]: for an id
    that was free before the [POST] and is stored after it, a
    [DELETE /drinks/<id>] that holds its permission answers
    [{success: true, delete: id}] and leaves the earlier table. *)
Theorem delete_undoes_create created removed s k payload :
  path created = UrlDrinks → method created = POST →
  path removed = UrlDrinksId k → method removed = DELETE →
  authenticate env "delete:drinks" removed = Return payload →
  s !! k = None → is_Some ((wsgi_app env created s).2 !! k) →
  wsgi_app env removed (wsgi_app env created s).2 =
    (jsonify (JObj [("success", JBool true); ("delete", JNum k)]), s).
Proof.
  intros Hpc Hmc Hpr Hmr Hauth Hfree Hnew.
  rewrite (wsgi_app_delete _ _ _ Hpr Hmr), Hauth.
  destruct Hnew as [d Hd]. rewrite Hd.
  destruct (wsgi_app_table_step created s)
    as [|? fields _ _ _ _ _|? id ? fields Hp _ _ _ _ _|? id ? Hp _ _ _];
    [congruence| |congruence..].
  apply lookup_insert_Some in Hd as [[<- _]|[_ Hd]]; [|congruence].
  by rewrite delete_insert_id.
Qed.

Lemma authenticate_ext permission req req' :
  authorization req = authorization req' →
  authenticate env permission req = authenticate env permission req'.
Proof. intros H. unfold authenticate, get_token_auth_header. by rewrite H. Qed.

(** X10: [DELETE /drinks/<id>] never reads the body: two requests for the
    same id with the same [Authorization] header get the same response and
    leave the same table, whatever their bodies are, readable or not. *)
Theorem delete_ignores_the_body req req' s id :
  path req = UrlDrinksId id → method req = DELETE →
  path req' = UrlDrinksId id → method req' = DELETE →
  authorization req = authorization req' →
  wsgi_app env req s = wsgi_app env req' s.
Proof.
  intros Hp Hm Hp' Hm' Ha.
  rewrite (wsgi_app_delete _ _ _ Hp Hm), (wsgi_app_delete _ _ _ Hp' Hm').
  by rewrite (authenticate_ext _ _ _ Ha).
Qed.

(** X11: [GET /drinks] is public all the way: the response depends on the
    table alone, not on the [Authorization] header (absent, malformed,
    expired) nor on the body of the request. *)
Theorem list_ignores_the_request req req' s :
  path req = UrlDrinks → method req = GET →
  path req' = UrlDrinks → method req' = GET →
  wsgi_app env req s = wsgi_app env req' s.
Proof.
  intros Hp Hm Hp' Hm'.
  by rewrite (wsgi_app_list _ _ Hp Hm), (wsgi_app_list _ _ Hp' Hm').
Qed.

(** X12: a [PATCH /drinks/<id>] answered 200 carries, as the one element of
    [drinks], the long projection of the row the table holds under the id
    after the request. *)
Theorem update_answers_with_the_stored_row req s id :
  path req = UrlDrinksId id → method req = PATCH →
  status (wsgi_app env req s).1 = 200 →
  ∃ d' l,
    (wsgi_app env req s).2 !! id = Some d' ∧
    long env (id, d') = Return l ∧
    (wsgi_app env req s).1 = success_drinks l.
Proof.
  intros Hp Hm. rewrite (wsgi_app_patch env _ _ _ Hp Hm).
  destruct (authenticate env "patch:drinks" req) as [payload|e] eqn:Hauth.
  - destruct (json_body req) as [body| |]; try done.
    destruct (s !! id) as [d|]; [|done].
    destruct body as [| | | | |fields]; try done.
    destruct (table_accepts env _ _); [|done].
    destruct (long env _) as [l|] eqn:Hl; [|done]. intros _.
    exists (patched env d fields), l. simpl. by rewrite lookup_insert_eq.
  - by apply authenticate_raises_auth_error in Hauth as [a ->].
Qed.
End Further.

Section FurtherRuns.
Import Sample.

Lemma success_flag_agrees_with_status_run :
  method (manager PUT UrlDrinks (JsonValue tea)) ∈ [GET; POST; PATCH; DELETE; PUT] ∧
  match content (wsgi_app env (manager PUT UrlDrinks (JsonValue tea)) menu).1 with
  | Json j =>
      ∃ fields, j = JObj fields ∧
        assoc "success" fields =
          Some (JBool (bool_decide
                         (status (wsgi_app env (manager PUT UrlDrinks (JsonValue tea)) menu).1
                            = 200)))
  | DefaultPage =>
      status (wsgi_app env (manager PUT UrlDrinks (JsonValue tea)) menu).1
        ∈ [400; 405; 415; 500]
  end.
Proof.
  assert (method (manager PUT UrlDrinks (JsonValue tea)) ∈ [GET; POST; PATCH; DELETE; PUT])
    as Hin.
  { apply list_elem_of_In. simpl. tauto. }
  split; [exact Hin|].
  apply (success_flag_agrees_with_status env _ menu Hin).
Defined.

Lemma create_answers_200_or_422_run :
  path (manager POST UrlDrinks JsonBadRequest) = UrlDrinks ∧
  method (manager POST UrlDrinks JsonBadRequest) = POST ∧
  authenticate env "post:drinks" (manager POST UrlDrinks JsonBadRequest)
    = Return manager_claims ∧
  (status (wsgi_app env (manager POST UrlDrinks JsonBadRequest) menu).1 = 200 ∨
   (wsgi_app env (manager POST UrlDrinks JsonBadRequest) menu).1
     = error_response 422 "unprocessable") ∧
  ((∀ fields, json_body (manager POST UrlDrinks JsonBadRequest) ≠ JsonValue (JObj fields)) →
   wsgi_app env (manager POST UrlDrinks JsonBadRequest) menu
     = (error_response 422 "unprocessable", menu)) ∧
  (∀ fields, json_body (manager POST UrlDrinks JsonBadRequest) = JsonValue (JObj fields) →
     table_accepts env menu (new_drink env fields) = false →
     wsgi_app env (manager POST UrlDrinks JsonBadRequest) menu
       = (error_response 422 "unprocessable", menu)).
Proof.
  split; [reflexivity|]. split; [reflexivity|]. split; [vm_compute; reflexivity|].
  apply (create_answers_200_or_422 env _ menu manager_claims);
    [reflexivity|reflexivity|vm_compute; reflexivity].
Defined.

Lemma update_checks_body_then_drink_run :
  path (manager PATCH (UrlDrinksId 2) (JsonValue (JArr []))) = UrlDrinksId 2 ∧
  method (manager PATCH (UrlDrinksId 2) (JsonValue (JArr []))) = PATCH ∧
  authenticate env "patch:drinks" (manager PATCH (UrlDrinksId 2) (JsonValue (JArr [])))
    = Return manager_claims ∧
  (json_body (manager PATCH (UrlDrinksId 2) (JsonValue (JArr []))) = JsonBadRequest →
   wsgi_app env (manager PATCH (UrlDrinksId 2) (JsonValue (JArr []))) menu
     = (default_response 400, menu)) ∧
  (json_body (manager PATCH (UrlDrinksId 2) (JsonValue (JArr []))) = JsonUnsupportedMediaType →
   wsgi_app env (manager PATCH (UrlDrinksId 2) (JsonValue (JArr []))) menu
     = (default_response 415, menu)) ∧
  (∀ v, json_body (manager PATCH (UrlDrinksId 2) (JsonValue (JArr []))) = JsonValue v →
     is_Some (menu !! 2) →
     (∀ fields, v ≠ JObj fields) →
     wsgi_app env (manager PATCH (UrlDrinksId 2) (JsonValue (JArr []))) menu
       = (error_response 422 "unprocessable", menu)).
Proof.
  split; [reflexivity|]. split; [reflexivity|]. split; [vm_compute; reflexivity|].
  apply (update_checks_body_then_drink env _ menu 2 manager_claims);
    [reflexivity|reflexivity|vm_compute; reflexivity].
Defined.

Lemma get_drinks_detail_lists_all_by_id_run :
  path (barista GET UrlDrinksDetail (JsonValue JNull)) = UrlDrinksDetail ∧
  method (barista GET UrlDrinksDetail (JsonValue JNull)) = GET ∧
  authenticate env "get:drinks-detail" (barista GET UrlDrinksDetail (JsonValue JNull))
    = Return {| permissions := Some ["get:drinks-detail"]; other_claims := [] |} ∧
  (∀ id d, menu !! id = Some d → is_Some (json_loads env (recipe d))) ∧
  ∃ rows,
    rows ≡ₚ map_to_list menu ∧
    (∀ id d, (id, d) ∈ rows ↔ menu !! id = Some d) ∧
    StronglySorted by_id rows ∧
    wsgi_app env (barista GET UrlDrinksDetail (JsonValue JNull)) menu =
      (jsonify (JObj [("success", JBool true);
                      ("drinks", JArr (long_projection env <$> rows))]), menu).
Proof.
  assert (∀ id d, menu !! id = Some d → is_Some (json_loads env (recipe d))) as Hok.
  { apply (bool_decide_unpack
             (map_Forall (λ _ d, is_Some (json_loads env (recipe d))) menu)).
    vm_compute. reflexivity. }
  split; [reflexivity|]. split; [reflexivity|]. split; [vm_compute; reflexivity|].
  split; [exact Hok|].
  apply (get_drinks_detail_lists_all_by_id env _ menu
           {| permissions := Some ["get:drinks-detail"]; other_claims := [] |});
    [reflexivity|reflexivity|vm_compute; reflexivity|exact Hok].
Defined.

Lemma writes_need_the_permission_run :
  (wsgi_app env (manager DELETE (UrlDrinksId 2) (JsonValue JNull)) menu).2 ≠ menu ∧
  method (manager DELETE (UrlDrinksId 2) (JsonValue JNull)) ≠ GET ∧
  ∃ permission view payload,
    guarded_endpoint env (manager DELETE (UrlDrinksId 2) (JsonValue JNull)) permission view ∧
    authenticate env permission (manager DELETE (UrlDrinksId 2) (JsonValue JNull))
      = Return payload.
Proof.
  assert ((wsgi_app env (manager DELETE (UrlDrinksId 2) (JsonValue JNull)) menu).2 ≠ menu)
    as Hne.
  { intros H. apply (f_equal (λ m : store, m !! 2)) in H. vm_compute in H. discriminate H. }
  split; [exact Hne|].
  apply (writes_need_the_permission env _ menu Hne).
Defined.

Lemma update_twice_is_update_once_run :
  path (manager PATCH (UrlDrinksId 2) (JsonValue rename_to_tea)) = UrlDrinksId 2 ∧
  method (manager PATCH (UrlDrinksId 2) (JsonValue rename_to_tea)) = PATCH ∧
  wsgi_app env (manager PATCH (UrlDrinksId 2) (JsonValue rename_to_tea))
    (wsgi_app env (manager PATCH (UrlDrinksId 2) (JsonValue rename_to_tea)) menu).2 =
  wsgi_app env (manager PATCH (UrlDrinksId 2) (JsonValue rename_to_tea)) menu.
Proof.
  split; [reflexivity|]. split; [reflexivity|].
  apply (update_twice_is_update_once env _ menu 2); reflexivity.
Defined.

Lemma delete_undoes_create_run :
  path (manager POST UrlDrinks (JsonValue tea)) = UrlDrinks ∧
  method (manager POST UrlDrinks (JsonValue tea)) = POST ∧
  path (manager DELETE (UrlDrinksId 8) (JsonValue JNull)) = UrlDrinksId 8 ∧
  method (manager DELETE (UrlDrinksId 8) (JsonValue JNull)) = DELETE ∧
  authenticate env "delete:drinks" (manager DELETE (UrlDrinksId 8) (JsonValue JNull))
    = Return manager_claims ∧
  menu !! 8 = None ∧
  is_Some ((wsgi_app env (manager POST UrlDrinks (JsonValue tea)) menu).2 !! 8) ∧
  wsgi_app env (manager DELETE (UrlDrinksId 8) (JsonValue JNull))
    (wsgi_app env (manager POST UrlDrinks (JsonValue tea)) menu).2 =
    (jsonify (JObj [("success", JBool true); ("delete", JNum 8)]), menu).
Proof.
  assert (is_Some ((wsgi_app env (manager POST UrlDrinks (JsonValue tea)) menu).2 !! 8))
    as Hnew.
  { vm_compute. eexists. reflexivity. }
  split; [reflexivity|]. split; [reflexivity|]. split; [reflexivity|].
  split; [reflexivity|]. split; [vm_compute; reflexivity|].
  split; [vm_compute; reflexivity|]. split; [exact Hnew|].
  apply (delete_undoes_create env _ _ menu 8 manager_claims);
    [reflexivity|reflexivity|reflexivity|reflexivity|vm_compute; reflexivity
    |vm_compute; reflexivity|exact Hnew].
Defined.

Lemma delete_ignores_the_body_run :
  path (manager DELETE (UrlDrinksId 2) (JsonValue JNull)) = UrlDrinksId 2 ∧
  method (manager DELETE (UrlDrinksId 2) (JsonValue JNull)) = DELETE ∧
  path (manager DELETE (UrlDrinksId 2) JsonBadRequest) = UrlDrinksId 2 ∧
  method (manager DELETE (UrlDrinksId 2) JsonBadRequest) = DELETE ∧
  authorization (manager DELETE (UrlDrinksId 2) (JsonValue JNull))
    = authorization (manager DELETE (UrlDrinksId 2) JsonBadRequest) ∧
  wsgi_app env (manager DELETE (UrlDrinksId 2) (JsonValue JNull)) menu =
  wsgi_app env (manager DELETE (UrlDrinksId 2) JsonBadRequest) menu.
Proof.
  do 5 (split; [reflexivity|]).
  apply (delete_ignores_the_body env _ _ menu 2); reflexivity.
Defined.

Lemma list_ignores_the_request_run :
  path (anonymous GET UrlDrinks (JsonValue JNull)) = UrlDrinks ∧
  method (anonymous GET UrlDrinks (JsonValue JNull)) = GET ∧
  path (barista GET UrlDrinks JsonBadRequest) = UrlDrinks ∧
  method (barista GET UrlDrinks JsonBadRequest) = GET ∧
  wsgi_app env (anonymous GET UrlDrinks (JsonValue JNull)) menu =
  wsgi_app env (barista GET UrlDrinks JsonBadRequest) menu.
Proof.
  do 4 (split; [reflexivity|]).
  apply (list_ignores_the_request env _ _ menu); reflexivity.
Defined.

Lemma update_answers_with_the_stored_row_run :
  path (manager PATCH (UrlDrinksId 2) (JsonValue rename_to_tea)) = UrlDrinksId 2 ∧
  method (manager PATCH (UrlDrinksId 2) (JsonValue rename_to_tea)) = PATCH ∧
  status (wsgi_app env (manager PATCH (UrlDrinksId 2) (JsonValue rename_to_tea)) menu).1
    = 200 ∧
  ∃ d' l,
    (wsgi_app env (manager PATCH (UrlDrinksId 2) (JsonValue rename_to_tea)) menu).2 !! 2
      = Some d' ∧
    long env (2, d') = Return l ∧
    (wsgi_app env (manager PATCH (UrlDrinksId 2) (JsonValue rename_to_tea)) menu).1
      = success_drinks l.
Proof.
  split; [reflexivity|]. split; [reflexivity|]. split; [vm_compute; reflexivity|].
  apply (update_answers_with_the_stored_row env _ menu 2);
    [reflexivity|reflexivity|vm_compute; reflexivity].
Defined.
End FurtherRuns.
